(** * blackbox-ecom-backend: error handling, not-found responder, shutdown

    A shallow embedding of

      - [src/backend/src/middlewares/errorHandler.ts]  (module [ErrorHandler]),
      - the API not-found middleware, [apiNotFoundHandler]  (module [NotFound]),
      - the server entry point with [gracefulShutdown]   (module [Server]),

    over a small model of the JavaScript values these files handle
    (module [JS]).  The handlers take [err : any]; TypeScript's types are
    erased when the code runs, so errors are modelled as JavaScript objects
    with their own properties (enumerable or not) and the data properties
    they inherit, and every operation that can raise a [TypeError] returns
    a [result]. *)

From Stdlib Require Import String Ascii ZArith List Bool Lia DecimalString.
Import ListNotations.
Open Scope string_scope.
Open Scope Z_scope.

(* ===================================================================== *)
(** * JavaScript values *)
(* ===================================================================== *)

Module JS.

(** Values.  Numbers are the integer-valued ones (status codes, driver
    codes).  An object is the ordered list of its own properties, each with
    its [enumerable] attribute, in the order [Object.keys] and spread visit
    them, and the data properties found along its prototype chain.  The
    function-valued members of the built-in prototypes are not data and are
    not listed; none of the keys read through [get] below names one. *)
#[warnings="-register-all"]
Inductive value : Type :=
| VUndefined
| VNull
| VBool (b : bool)
| VNum (n : Z)
| VStr (s : string)
| VObj (own : list (string * (bool * value))) (inherited : list (string * value)).

(** A computation either returns or throws a [TypeError]. *)
Inductive result (A : Type) : Type :=
| Ok (a : A)
| TypeError.
Arguments Ok {A} a.
Arguments TypeError {A}.

Definition bind {A B : Type} (c : result A) (k : A -> result B) : result B :=
  match c with
  | Ok a => k a
  | TypeError => TypeError
  end.

Notation "'let*' x ':=' c 'in' k" := (bind c (fun x => k))
  (at level 10, x name, c at level 100, k at level 200).

Fixpoint mapM {A B : Type} (f : A -> result B) (l : list A) : result (list B) :=
  match l with
  | [] => Ok []
  | a :: l' => let* b := f a in let* bs := mapM f l' in Ok (b :: bs)
  end.

(** What the running process supplies: [process.env.NODE_ENV], the value of
    [new Date().toISOString()], the trace [Error.captureStackTrace] records,
    and the string an object converts to (its [toString] method, which the
    value model does not carry). *)
Record Runtime : Type := {
  NODE_ENV : value;
  now : string;
  trace : string;
  objectToString : value -> string
}.

Fixpoint assoc {A : Type} (k : string) (l : list (string * A)) : option A :=
  match l with
  | [] => None
  | (k', a) :: l' => if String.eqb k k' then Some a else assoc k l'
  end.

(** Decimal rendering of an integer, as [Number.prototype.toString] gives
    it for integers below 10^21 in absolute value. *)
Definition decimal (n : Z) : string := NilZero.string_of_int (Z.to_int n).

(** The index properties of a primitive string: ["0"], ["1"], ... each
    holding one character. *)
Definition indices (s : string) : list (string * value) :=
  combine (map (fun i => decimal (Z.of_nat i)) (seq 0 (String.length s)))
          (map (fun c => VStr (String c EmptyString)) (list_ascii_of_string s)).

(** [v[k]] / [v.k]. *)
Definition get (v : value) (k : string) : result value :=
  match v with
  | VUndefined | VNull => TypeError
  | VBool _ | VNum _ => Ok VUndefined
  | VStr s =>
      Ok match assoc k (indices s) with
         | Some c => c
         | None => if String.eqb k "length"
                   then VNum (Z.of_nat (String.length s)) else VUndefined
         end
  | VObj own inherited =>
      Ok match assoc k own with
         | Some (_, x) => x
         | None => match assoc k inherited with
                   | Some x => x
                   | None => VUndefined
                   end
         end
  end.

Fixpoint update (k : string) (x : value) (own : list (string * (bool * value)))
  : list (string * (bool * value)) :=
  match own with
  | [] => [(k, (true, x))]
  | (k', (e, y)) :: own' =>
      if String.eqb k k' then (k', (e, x)) :: own'
      else (k', (e, y)) :: update k x own'
  end.

(** [v.k = x] in strict mode (the files are ES modules): an existing own
    property keeps its place and attributes, a new one is appended as
    enumerable; assigning to a property of a primitive throws. *)
Definition set (v : value) (k : string) (x : value) : result value :=
  match v with
  | VObj own inherited => Ok (VObj (update k x own) inherited)
  | _ => TypeError
  end.

(** The own enumerable properties, in order. *)
Definition ownEnumerable (v : value) : list (string * value) :=
  match v with
  | VObj own _ =>
      map (fun p => (fst p, snd (snd p))) (filter (fun p => fst (snd p)) own)
  | VStr s => indices s
  | _ => []
  end.

(** [Object.keys(v)] and [Object.values(v)]. *)
Definition Object_keys (v : value) : result (list string) :=
  match v with
  | VUndefined | VNull => TypeError
  | _ => Ok (map fst (ownEnumerable v))
  end.

Definition Object_values (v : value) : result (list value) :=
  match v with
  | VUndefined | VNull => TypeError
  | _ => Ok (map snd (ownEnumerable v))
  end.

(** [{ ...v }]: a fresh plain object with the own enumerable properties of
    [v]; spreading [undefined], [null] or [false] adds nothing. *)
Definition spread (v : value) : list (string * (bool * value)) :=
  map (fun p => (fst p, (true, snd p))) (ownEnumerable v).

(** Truthiness, [a || b], [a && b]. *)
Definition truthy (v : value) : bool :=
  match v with
  | VUndefined | VNull => false
  | VBool b => b
  | VNum n => negb (n =? 0)
  | VStr s => negb (String.eqb s EmptyString)
  | VObj _ _ => true
  end.

Definition or_else (a b : value) : value := if truthy a then a else b.
Definition and_then (a b : value) : value := if truthy a then b else a.

(** [v === "s"] and [v === n]. *)
Definition is_str (v : value) (s : string) : bool :=
  match v with
  | VStr s' => String.eqb s' s
  | _ => false
  end.

Definition is_num (v : value) (n : Z) : bool :=
  match v with
  | VNum n' => n' =? n
  | _ => false
  end.

(** String conversion, as a template literal performs it. *)
Definition toString (rt : Runtime) (v : value) : string :=
  match v with
  | VUndefined => "undefined"
  | VNull => "null"
  | VBool true => "true"
  | VBool false => "false"
  | VNum n => decimal n
  | VStr s => s
  | VObj _ _ => objectToString rt v
  end.

(** [Array.prototype.join]: [undefined] and [null] elements render empty. *)
Definition joinItem (rt : Runtime) (v : value) : string :=
  match v with
  | VUndefined | VNull => EmptyString
  | _ => toString rt v
  end.

Fixpoint join (rt : Runtime) (sep : string) (l : list value) : string :=
  match l with
  | [] => EmptyString
  | [v] => joinItem rt v
  | v :: l' => joinItem rt v ++ sep ++ join rt sep l'
  end.

(** [t.includes(s)] on strings. *)
Fixpoint includes (s t : string) : bool :=
  String.prefix s t ||
  match t with
  | EmptyString => false
  | String _ t' => includes s t'
  end.

(** [m.includes(s)] on a value: only strings have the method among the
    values modelled. *)
Definition includes_method (m : value) (s : string) : result bool :=
  match m with
  | VStr t => Ok (includes s t)
  | _ => TypeError
  end.

End JS.

(* ===================================================================== *)
(** * middlewares/errorHandler.ts *)
(* ===================================================================== *)

Module ErrorHandler.
Import JS.

(** The parts of an Express request the middlewares read. *)
Record Request : Type := {
  originalUrl : string;
  method : string;
  ip : value;
  userAgent : value;   (* req.get("User-Agent") *)
  protocol : string;
  host : value         (* req.get("host") *)
}.

(** What a handler leaves behind: the argument of [res.status], the body
    given to [res.json], and the lines written with [console.error]. *)
Record Sent : Type := {
  status : value;
  json : value;
  logged : list (list value)
}.

(** [JSON.stringify], which [res.json] applies, leaves out the properties
    whose value is [undefined]: the fields of a body that reach the client. *)
Definition defined (v : value) : bool :=
  match v with
  | VUndefined => false
  | _ => true
  end.

Definition wire (body : value) : list (string * value) :=
  filter (fun p => defined (snd p)) (ownEnumerable body).

Definition field (body : value) (k : string) : option value := assoc k (wire body).

(** [class AppError extends Error]: [super(message)] and
    [Error.captureStackTrace] give the instance its own non-enumerable
    [stack] and [message]; the two assignments in the constructor add the
    enumerable [statusCode] and [isOperational]; [name] is found on
    [Error.prototype]. *)
Definition AppError (rt : Runtime) (message : string) (statusCode : option Z) : value :=
  VObj [ ("stack", (false, VStr (trace rt)));
         ("message", (false, VStr message));
         ("statusCode", (true, VNum match statusCode with Some n => n | None => 500 end));
         ("isOperational", (true, VBool true)) ]
       [ ("name", VStr "Error") ].

Definition orDefault (message : option string) (dflt : string) : string :=
  match message with
  | Some m => m
  | None => dflt
  end.

Definition AuthenticationError (rt : Runtime) (message : option string) : value :=
  AppError rt (orDefault message "Authentication failed") (Some 401).

Definition AuthorizationError (rt : Runtime) (message : option string) : value :=
  AppError rt (orDefault message "You are not authorized to perform this action") (Some 403).

Definition NotFoundError (rt : Runtime) (resource : option string) : value :=
  AppError rt (orDefault resource "Resource" ++ " not found") (Some 404).

Definition ConflictError (rt : Runtime) (message : option string) : value :=
  AppError rt (orDefault message "Resource already exists") (Some 409).

Definition BadRequestError (rt : Runtime) (message : option string) : value :=
  AppError rt (orDefault message "Bad request") (Some 400).

Definition InternalServerError (rt : Runtime) (message : option string) : value :=
  AppError rt (orDefault message "Internal server error") (Some 500).

(** ** The handlers of the specific failure shapes *)

Definition handleCastError (rt : Runtime) (error : value) : result value :=
  let* path := get error "path" in
  let* value := get error "value" in
  let message := "Invalid " ++ toString rt path ++ ": " ++ toString rt value in
  Ok (AppError rt message (Some 400)).

Definition handleValidationError (rt : Runtime) (error : value) : result value :=
  let* errs := get error "errors" in
  let* subs := Object_values errs in
  let* errors := mapM (fun err => get err "message") subs in
  let message := "Invalid input data. " ++ join rt ". " errors in
  Ok (AppError rt message (Some 400)).

Definition handleDuplicateKeyError (rt : Runtime) (error : value) : result value :=
  let* keyValue := get error "keyValue" in
  let* keys := Object_keys keyValue in
  let field := match keys with
               | k :: _ => VStr k
               | [] => VUndefined
               end in
  let* value := get keyValue (toString rt field) in
  let message := toString rt field ++ " '" ++ toString rt value
                 ++ "' already exists. Please use another value." in
  Ok (AppError rt message (Some 400)).

Definition handleJWTError (rt : Runtime) : result value :=
  Ok (AppError rt "Invalid token. Please log in again." (Some 401)).

Definition handleJWTExpiredError (rt : Runtime) : result value :=
  Ok (AppError rt "Your token has expired. Please log in again." (Some 401)).

(** ** Symbolic codes *)

Definition getErrorCode (statusCode message : value) : result string :=
  if is_num statusCode 404 then
    let* found := includes_method message "find" in
    if found then Ok "ROUTE_NOT_FOUND" else Ok "RESOURCE_NOT_FOUND"
  else if is_num statusCode 401 then Ok "UNAUTHORIZED"
  else if is_num statusCode 403 then Ok "FORBIDDEN"
  else if is_num statusCode 400 then Ok "BAD_REQUEST"
  else if is_num statusCode 409 then Ok "CONFLICT"
  else if is_num statusCode 422 then Ok "VALIDATION_ERROR"
  else if is_num statusCode 429 then Ok "RATE_LIMIT_EXCEEDED"
  else Ok "SERVER_ERROR".

(** ** The two formatters *)

Definition plain (props : list (string * value)) : value :=
  VObj (map (fun p => (fst p, (true, snd p))) props) [].

Definition sendErrorDev (rt : Runtime) (err : value) : result Sent :=
  let* message := get err "message" in
  let* statusCode := get err "statusCode" in
  let* code := getErrorCode statusCode message in
  let* name := get err "name" in
  let* stack := get err "stack" in
  let errorResponse :=
    VObj ([ ("success", (true, VBool false));
            ("message", (true, message));
            ("error", (true, plain [ ("code", VStr code);
                                     ("timestamp", VStr (now rt));
                                     ("name", name) ])) ]
          ++ spread (and_then (VBool (is_str (NODE_ENV rt) "development"))
                              (plain [ ("stack", stack) ])))
         [] in
  Ok {| status := statusCode; json := errorResponse; logged := [] |}.

Definition sendErrorProd (rt : Runtime) (err : value) : result Sent :=
  let* isOperational := get err "isOperational" in
  if truthy isOperational then
    let* message := get err "message" in
    let* statusCode := get err "statusCode" in
    let* code := getErrorCode statusCode message in
    let errorResponse :=
      plain [ ("success", VBool false);
              ("message", message);
              ("error", plain [ ("code", VStr code);
                                ("timestamp", VStr (now rt)) ]) ] in
    Ok {| status := statusCode; json := errorResponse; logged := [] |}
  else
    let errorResponse :=
      plain [ ("success", VBool false);
              ("message", VStr "Internal server error. Please try again later.");
              ("error", plain [ ("code", VStr "INTERNAL_SERVER_ERROR");
                                ("timestamp", VStr (now rt)) ]) ] in
    Ok {| status := VNum 500; json := errorResponse;
          logged := [ [VStr "ERROR 💥"; err] ] |}.

(** ** The middleware *)

(** Lines 142-143: the defaults written into the incoming error itself. *)
Definition setDefaults (err : value) : result value :=
  let* statusCode := get err "statusCode" in
  let* err := set err "statusCode" (or_else statusCode (VNum 500)) in
  let* st := get err "status" in
  set err "status" (or_else st (VStr "error")).

(** Lines 149-157: the copy, then the five tests, each of which replaces
    [error] when it holds. *)
Definition classify (rt : Runtime) (err : value) : result value :=
  let* message := get err "message" in
  let* error := set (VObj (spread err) []) "message" message in
  let* name := get err "name" in
  let* error := if is_str name "CastError" then handleCastError rt err else Ok error in
  let* name := get err "name" in
  let* error := if is_str name "ValidationError" then handleValidationError rt err else Ok error in
  let* code := get err "code" in
  let* error := if is_num code 11000 then handleDuplicateKeyError rt err else Ok error in
  let* name := get err "name" in
  let* error := if is_str name "JsonWebTokenError" then handleJWTError rt else Ok error in
  let* name := get err "name" in
  let* error := if is_str name "TokenExpiredError" then handleJWTExpiredError rt else Ok error in
  Ok error.

(** Lines 160-164: the formatter is chosen by the deployment mode. *)
Definition respond (rt : Runtime) (error : value) : result Sent :=
  if is_str (NODE_ENV rt) "development" then sendErrorDev rt error
  else sendErrorProd rt error.

Definition globalErrorHandler (rt : Runtime) (err : value) (req : Request) : result Sent :=
  let* err := setDefaults err in
  let isDevelopment := is_str (NODE_ENV rt) "development" in
  let* error := classify rt err in
  let* sent := respond rt error in
  let* message := get err "message" in
  let* statusCode := get err "statusCode" in
  let* stack := get err "stack" in
  let entry :=
    VObj ([ ("message", (true, message));
            ("statusCode", (true, statusCode));
            ("url", (true, VStr (originalUrl req)));
            ("method", (true, VStr (method req)));
            ("ip", (true, ip req));
            ("userAgent", (true, userAgent req)) ]
          ++ spread (and_then (VBool isDevelopment) (plain [ ("stack", stack) ])))
         [] in
  Ok {| status := status sent;
        json := json sent;
        logged := logged sent ++ [ [VStr ("[" ++ now rt ++ "] ERROR:"); entry] ] |}.

(** [notFound]: the error handed to [next]. *)
Definition notFound (rt : Runtime) (req : Request) : value :=
  AppError rt ("Can't find " ++ originalUrl req ++ " on this server!") (Some 404).

(** ** Vocabulary for the statements *)

(** The tests of lines 153-157, as predicates on the incoming error. *)
Definition hasName (err : value) (s : string) : bool :=
  match get err "name" with
  | Ok v => is_str v s
  | TypeError => false
  end.

Definition hasCode (err : value) (n : Z) : bool :=
  match get err "code" with
  | Ok v => is_num v n
  | TypeError => false
  end.

Definition matchesNoShape (err : value) : bool :=
  negb (hasName err "CastError") && negb (hasName err "ValidationError")
  && negb (hasCode err 11000)
  && negb (hasName err "JsonWebTokenError") && negb (hasName err "TokenExpiredError").

Definition returns {A : Type} (r : result A) : bool :=
  match r with
  | Ok _ => true
  | TypeError => false
  end.

(** Every handler that classification runs on [err] returns.  Only the
    handlers of the validation and duplicate-key shapes can throw on an
    object. *)
Definition handlersReturn (rt : Runtime) (err : value) : bool :=
  (negb (hasName err "ValidationError") || returns (handleValidationError rt err))
  && (negb (hasCode err 11000) || returns (handleDuplicateKeyError rt err)).

(** The copy of lines 149-150. *)
Definition copyOf (err : value) : result value :=
  let* message := get err "message" in
  set (VObj (spread err) []) "message" message.

(** The mapping policy as the specification words it: the rules are tried
    in the listed order and the first that matches decides. *)
Definition earliestRule (rt : Runtime) (err : value) : result value :=
  if hasName err "CastError" then handleCastError rt err
  else if hasName err "ValidationError" then handleValidationError rt err
  else if hasCode err 11000 then handleDuplicateKeyError rt err
  else if hasName err "JsonWebTokenError" then handleJWTError rt
  else if hasName err "TokenExpiredError" then handleJWTExpiredError rt
  else copyOf err.

(** The same rules with the opposite priority: the last that matches
    decides. *)
Definition latestRule (rt : Runtime) (err : value) : result value :=
  if hasName err "TokenExpiredError" then handleJWTExpiredError rt
  else if hasName err "JsonWebTokenError" then handleJWTError rt
  else if hasCode err 11000 then handleDuplicateKeyError rt err
  else if hasName err "ValidationError" then handleValidationError rt err
  else if hasName err "CastError" then handleCastError rt err
  else copyOf err.

(** [err] has the own enumerable property [k] with value [v]: what both a
    read of [err.k] and the copy [{ ...err }] see. *)
Definition carries (err : value) (k : string) (v : value) : Prop :=
  match err with
  | VObj own _ => assoc k own = Some (true, v)
  | _ => False
  end.

Definition isObject (v : value) : bool :=
  match v with
  | VObj _ _ => true
  | _ => false
  end.

(** [t] contains [s]. *)
Definition Substring (s t : string) : Prop := exists a b, t = a ++ s ++ b.

(** The errors the class hierarchy constructs. *)
Inductive Constructed (rt : Runtime) : value -> Prop :=
| C_AppError m s : Constructed rt (AppError rt m s)
| C_AuthenticationError m : Constructed rt (AuthenticationError rt m)
| C_AuthorizationError m : Constructed rt (AuthorizationError rt m)
| C_NotFoundError r : Constructed rt (NotFoundError rt r)
| C_ConflictError m : Constructed rt (ConflictError rt m)
| C_BadRequestError m : Constructed rt (BadRequestError rt m)
| C_InternalServerError m : Constructed rt (InternalServerError rt m).

(** The errors the classifier itself makes. *)
Inductive Classified (rt : Runtime) : value -> Prop :=
| Cl_cast err e : handleCastError rt err = Ok e -> Classified rt e
| Cl_validation err e : handleValidationError rt err = Ok e -> Classified rt e
| Cl_duplicate err e : handleDuplicateKeyError rt err = Ok e -> Classified rt e
| Cl_jwt e : handleJWTError rt = Ok e -> Classified rt e
| Cl_expired e : handleJWTExpiredError rt = Ok e -> Classified rt e.

(** ** The other helpers of the file *)

(** [formatValidationErrors]: one [{ field, message }] per error, with the
    defaults ["unknown"] and ["Invalid value"]. *)
Definition formatValidationError (error : value) : result value :=
  let* path := get error "path" in
  let* fld := get error "field" in
  let* message := get error "message" in
  Ok (plain [ ("field", or_else (or_else path fld) (VStr "unknown"));
              ("message", or_else message (VStr "Invalid value")) ]).

Definition formatValidationErrors (errors : list value) : result (list value) :=
  mapM formatValidationError errors.

(** [handleRateLimitError]. *)
Definition handleRateLimitError : Sent :=
  {| status := VNum 429;
     json := plain [ ("success", VBool false);
                     ("message", VStr "Too many requests from this IP, please try again later.") ];
     logged := [] |}.

(** What [handleFileUploadError] does: it answers, or calls [next(error)]. *)
Inductive Upload : Type :=
| Answered (sent : Sent)
| Forwarded (error : value).

Definition uploadRejection (message : string) : Sent :=
  {| status := VNum 400;
     json := plain [ ("success", VBool false); ("message", VStr message) ];
     logged := [] |}.

Definition handleFileUploadError (error : value) : result Upload :=
  let* code := get error "code" in
  if is_str code "LIMIT_FILE_SIZE"
  then Ok (Answered (uploadRejection "File too large. Maximum size allowed is 5MB."))
  else if is_str code "LIMIT_FILE_COUNT"
  then Ok (Answered (uploadRejection "Too many files. Maximum 10 files allowed."))
  else if is_str code "LIMIT_UNEXPECTED_FILE"
  then Ok (Answered (uploadRejection "Unexpected field in file upload."))
  else Ok (Forwarded error).

(** A text that may follow another without completing a "find" begun in
    it: it does not start with [i], [n] or [d]. *)
Definition startsApart (b : string) : bool :=
  match b with
  | EmptyString => true
  | String c _ => negb (Ascii.eqb c "i" || Ascii.eqb c "n" || Ascii.eqb c "d")
  end.

(** [undefined] or [null]: the values a property read throws on. *)
Definition nullish (v : value) : bool :=
  match v with
  | VUndefined | VNull => true
  | _ => false
  end.

(** The middleware answers [err] with this status, symbolic code and
    message. *)
Definition answers (rt : Runtime) (err : value) (req : Request)
  (statusCode : Z) (code message : string) : Prop :=
  exists sent e,
    globalErrorHandler rt err req = Ok sent /\
    status sent = VNum statusCode /\
    field (json sent) "message" = Some (VStr message) /\
    field (json sent) "error" = Some e /\
    field e "code" = Some (VStr code).

(** The line the middleware writes last, and the record in it. *)
Definition lastEntry (sent : Sent) : option value :=
  match rev (logged sent) with
  | [ _; entry ] :: _ => Some entry
  | _ => None
  end.

End ErrorHandler.

(* ===================================================================== *)
(** * The API not-found middleware *)
(* ===================================================================== *)

Module NotFound.
Import JS ErrorHandler.

(** What a middleware does with [next]. *)
Inductive Next : Type :=
| PassOn                   (* next() *)
| WithError (e : value).   (* next(error) *)

(** [s.toLowerCase()], on the ASCII letters a request line is made of. *)
Definition lowerAscii (c : ascii) : ascii :=
  let n := nat_of_ascii c in
  if ((65 <=? n) && (n <=? 90))%nat then ascii_of_nat (n + 32) else c.

Fixpoint toLowerCase (s : string) : string :=
  match s with
  | EmptyString => EmptyString
  | String c s' => String (lowerAscii c) (toLowerCase s')
  end.

(** [s.split(sep)] for a one-character separator: the pieces between the
    separators, empty ones included. *)
Fixpoint split (sep : ascii) (s : string) : list string :=
  match s with
  | EmptyString => [EmptyString]
  | String c s' =>
      if Ascii.eqb c sep then EmptyString :: split sep s'
      else match split sep s' with
           | piece :: pieces => String c piece :: pieces
           | [] => [String c EmptyString]
           end
  end.

(** [Boolean] applied to a string. *)
Definition nonEmpty (s : string) : bool := negb (String.eqb s EmptyString).

(** The directory of known resource groups, in the order it is written. *)
Definition apiRoutes : list (string * list string) :=
  [ ("auth", [ "/api/auth/register"; "/api/auth/login"; "/api/auth/logout";
               "/api/auth/profile"; "/api/auth/forgot-password";
               "/api/auth/reset-password"; "/api/auth/change-password" ]);
    ("products", [ "/api/products"; "/api/products/search";
                   "/api/products/featured"; "/api/products/{id}";
                   "/api/products/{id}/reviews" ]);
    ("categories", [ "/api/categories"; "/api/categories/tree";
                     "/api/categories/{id}" ]);
    ("cart", [ "/api/cart"; "/api/cart/add"; "/api/cart/update";
               "/api/cart/remove"; "/api/cart/clear" ]);
    ("orders", [ "/api/orders"; "/api/orders/my-orders"; "/api/orders/{id}";
                 "/api/orders/{id}/cancel" ]);
    ("reviews", [ "/api/reviews"; "/api/reviews/product/{id}"; "/api/reviews/{id}" ]);
    ("users", [ "/api/users/profile"; "/api/users/addresses"; "/api/users/orders" ]);
    ("wishlist", [ "/api/wishlist"; "/api/wishlist/add"; "/api/wishlist/remove" ]);
    ("coupons", [ "/api/coupons/active"; "/api/coupons/validate" ]);
    ("banners", [ "/api/banners/active" ]);
    ("admin", [ "/api/admin/dashboard"; "/api/admin/users"; "/api/admin/orders";
                "/api/admin/products"; "/api/admin/categories" ]) ].

(** [apiRoutes] is an object literal, so [apiRoutes[k]] also finds what
    [Object.prototype] defines under [k]: its methods and the [__proto__]
    accessor, all truthy and none iterable. *)
Definition objectPrototypeKeys : list string :=
  [ "constructor"; "__defineGetter__"; "__defineSetter__"; "hasOwnProperty";
    "__lookupGetter__"; "__lookupSetter__"; "isPrototypeOf";
    "propertyIsEnumerable"; "toString"; "valueOf"; "__proto__";
    "toLocaleString" ].

Inductive Member : Type :=
| Routes (l : list string)   (* an own entry of the directory *)
| Inherited                  (* a member of Object.prototype *)
| Missing.                   (* undefined *)

Definition lookup (k : string) : Member :=
  match assoc k apiRoutes with
  | Some l => Routes l
  | None => if existsb (String.eqb k) objectPrototypeKeys then Inherited else Missing
  end.

Definition commonSuggestions : list string :=
  [ "/api/auth/login"; "/api/auth/register"; "/api/products";
    "/api/categories"; "/api/orders" ].

(** Lines 20-21 and 74-89: the suggestions for a request path.  Spreading
    a value that is not iterable into [push] throws. *)
Definition suggestionsFor (url : string) : result (list string) :=
  let pathSegments := filter nonEmpty (split "/" (toLowerCase url)) in
  match nth_error pathSegments 1 with
  | Some resource =>
      match lookup resource with
      | Routes l => Ok l
      | Inherited => TypeError
      | Missing => Ok commonSuggestions
      end
  | None => Ok commonSuggestions
  end.

Definition bullets (items : list string) : string :=
  fold_left (fun message item => message ++ "
  • " ++ item) items EmptyString.

Definition tips : list string :=
  [ "Check if the HTTP method (GET, POST, PUT, DELETE) is correct";
    "Ensure all required parameters are included";
    "Verify the endpoint URL spelling and format";
    "Check if authentication is required for this endpoint" ].

Definition notFoundMessage (rt : Runtime) (req : Request) (suggestions : list string)
  : string :=
  ("API endpoint '" ++ method req ++ " " ++ originalUrl req ++ "' not found.")
  ++ (if (0 <? length suggestions)%nat
      then "

Did you mean one of these:" ++ bullets (firstn 5 suggestions)
      else EmptyString)
  ++ ("

For complete API documentation, visit: " ++ protocol req ++ "://"
      ++ toString rt (host req) ++ "/docs")
  ++ "

Troubleshooting tips:" ++ bullets tips.

Definition apiNotFoundHandler (rt : Runtime) (req : Request) : result Next :=
  if negb (String.prefix "/api/" (originalUrl req)) then Ok PassOn
  else
    let* suggestions := suggestionsFor (originalUrl req) in
    Ok (WithError (AppError rt (notFoundMessage rt req suggestions) (Some 404))).

Definition methodNotAllowedHandler (rt : Runtime) (req : Request) : Next :=
  WithError (AppError rt ("Method " ++ method req ++ " is not allowed for "
                          ++ originalUrl req
                          ++ ". Check the API documentation for supported methods.")
                         (Some 405)).

Definition rateLimitHandler (rt : Runtime) : Next :=
  WithError (AppError rt "Rate limit exceeded. Please try again later. Check the X-RateLimit-* headers for details."
                         (Some 429)).

(** [s] holds the character [c]. *)
Fixpoint holds (c : ascii) (s : string) : bool :=
  match s with
  | EmptyString => false
  | String d s' => Ascii.eqb d c || holds c s'
  end.

End NotFound.

(* ===================================================================== *)
(** * The server entry point and the shutdown wiring *)
(* ===================================================================== *)

Module Server.

(** The process as the entry point and [config/database.ts] see it: whether
    the module variable [server] has been assigned, whether [connectDB] has
    registered its own SIGINT listener, the calls made so far to
    [server.close] and [mongoose.connection.close], the callbacks and
    continuations waiting for those to complete, the lines the shutdown
    listeners write to the console, and the calls to [process.exit]. *)
Record Process : Type := {
  server : bool;
  dbListener : bool;
  serverCloseCalls : nat;
  closeCallbacks : nat;      (* callbacks given to server.close, not yet run *)
  dbCloseCalls : nat;
  dbContinuations : nat;     (* handlers suspended at [await ...close()] *)
  console : list string;
  exits : list Z
}.

Definition boot : Process :=
  {| server := false; dbListener := false; serverCloseCalls := 0;
     closeCallbacks := 0; dbCloseCalls := 0; dbContinuations := 0;
     console := []; exits := [] |}.

(** [process.exit] ends the process: nothing runs after it. *)
Definition exited (p : Process) : bool :=
  match exits p with
  | [] => false
  | _ => true
  end.

Definition log (line : string) (p : Process) : Process :=
  {| server := server p; dbListener := dbListener p;
     serverCloseCalls := serverCloseCalls p; closeCallbacks := closeCallbacks p;
     dbCloseCalls := dbCloseCalls p; dbContinuations := dbContinuations p;
     console := console p ++ [line]; exits := exits p |}.

Definition process_exit (code : Z) (p : Process) : Process :=
  {| server := server p; dbListener := dbListener p;
     serverCloseCalls := serverCloseCalls p; closeCallbacks := closeCallbacks p;
     dbCloseCalls := dbCloseCalls p; dbContinuations := dbContinuations p;
     console := console p; exits := exits p ++ [code] |}.

(** [server.close(cb)]: the call is made and [cb] waits for the server's
    close event. *)
Definition server_close (p : Process) : Process :=
  {| server := server p; dbListener := dbListener p;
     serverCloseCalls := S (serverCloseCalls p);
     closeCallbacks := S (closeCallbacks p);
     dbCloseCalls := dbCloseCalls p; dbContinuations := dbContinuations p;
     console := console p; exits := exits p |}.

(** [await mongoose.connection.close()]: the call is made and the rest of
    the listener waits for it. *)
Definition db_close (p : Process) : Process :=
  {| server := server p; dbListener := dbListener p;
     serverCloseCalls := serverCloseCalls p; closeCallbacks := closeCallbacks p;
     dbCloseCalls := S (dbCloseCalls p); dbContinuations := S (dbContinuations p);
     console := console p; exits := exits p |}.

(** The listener [gracefulShutdown(signal)] returns. *)
Definition gracefulShutdown (signal : string) (p : Process) : Process :=
  let p := log ("
🛑 Received " ++ signal ++ ". Starting graceful shutdown...") p in
  if server p then server_close p
  else process_exit 0 (log "✅ Graceful shutdown completed" p).

(** The callback [gracefulShutdown] gives to [server.close]. *)
Definition onServerClosed (p : Process) : Process :=
  process_exit 0 (log "✅ Graceful shutdown completed" (log "📴 HTTP server closed" p)).

(** The SIGINT listener of [connectDB], up to its [await], and after it. *)
Definition dbSigint (p : Process) : Process := db_close p.

Definition onDbClosed (p : Process) : Process :=
  process_exit 0 (log "🔴 MongoDB connection closed through app termination" p).

(** Run [n] waiting callbacks in order; the first [process.exit] stops
    everything. *)
Fixpoint drain (n : nat) (callback : Process -> Process) (p : Process) : Process :=
  match n with
  | O => p
  | S n' => if exited p then p else drain n' callback (callback p)
  end.

(** The termination signals the entry point listens for. *)
Inductive Termination : Type := SIGTERM | SIGINT.

Definition signalName (signal : Termination) : string :=
  match signal with
  | SIGTERM => "SIGTERM"
  | SIGINT => "SIGINT"
  end.

(** What happens to the process. *)
Inductive Event : Type :=
| DbConnected                   (* connectDB got its connection and registered its listener *)
| Listening                     (* app.listen returned: [server] is assigned *)
| Signal (signal : Termination) (* a termination signal is delivered *)
| ServerClosed                  (* the HTTP server emits its close event *)
| DbClosed.                     (* the connection's close completes *)

Definition setServer (p : Process) : Process :=
  {| server := true; dbListener := dbListener p;
     serverCloseCalls := serverCloseCalls p; closeCallbacks := closeCallbacks p;
     dbCloseCalls := dbCloseCalls p; dbContinuations := dbContinuations p;
     console := console p; exits := exits p |}.

Definition setDbListener (p : Process) : Process :=
  {| server := server p; dbListener := true;
     serverCloseCalls := serverCloseCalls p; closeCallbacks := closeCallbacks p;
     dbCloseCalls := dbCloseCalls p; dbContinuations := dbContinuations p;
     console := console p; exits := exits p |}.

Definition clearCloseCallbacks (p : Process) : Process :=
  {| server := server p; dbListener := dbListener p;
     serverCloseCalls := serverCloseCalls p; closeCallbacks := 0;
     dbCloseCalls := dbCloseCalls p; dbContinuations := dbContinuations p;
     console := console p; exits := exits p |}.

Definition clearDbContinuations (p : Process) : Process :=
  {| server := server p; dbListener := dbListener p;
     serverCloseCalls := serverCloseCalls p; closeCallbacks := closeCallbacks p;
     dbCloseCalls := dbCloseCalls p; dbContinuations := 0;
     console := console p; exits := exits p |}.

(** The listeners of a signal run in the order they were registered:
    [gracefulShutdown(signal)] from the entry point first, then, for SIGINT
    and once the database is connected, the listener of [connectDB]. *)
Definition deliver (signal : Termination) (p : Process) : Process :=
  let p := gracefulShutdown (signalName signal) p in
  if exited p then p
  else match signal with
       | SIGINT => if dbListener p then dbSigint p else p
       | SIGTERM => p
       end.

Definition step (p : Process) (e : Event) : Process :=
  if exited p then p
  else match e with
       | DbConnected => setDbListener p
       | Listening => setServer p
       | Signal signal => deliver signal p
       | ServerClosed => drain (closeCallbacks p) onServerClosed (clearCloseCallbacks p)
       | DbClosed => drain (dbContinuations p) onDbClosed (clearDbContinuations p)
       end.

Definition run (p : Process) (events : list Event) : Process :=
  fold_left step events p.

(** The supervisor's state, read off the process. *)
Inductive State : Type := Running | ShuttingDown | Stopped.

Definition state (p : Process) : State :=
  if exited p then Stopped
  else match serverCloseCalls p with
       | O => Running
       | S _ => ShuttingDown
       end.

(** Closing has begun and the process has not exited, or it has exited once
    with code 0. *)
Definition closing (p : Process) : Prop :=
  (exits p = [] /\ (1 <= closeCallbacks p)%nat) \/ exits p = [0].

(** The order in which the supervisor's states follow each other. *)
Definition rank (s : State) : nat :=
  match s with
  | Running => 0
  | ShuttingDown => 1
  | Stopped => 2
  end.

Definition isSignal (e : Event) : bool :=
  match e with
  | Signal _ => true
  | _ => false
  end.

Definition isSigint (e : Event) : bool :=
  match e with
  | Signal SIGINT => true
  | _ => false
  end.

End Server.

(* ===================================================================== *)
(** * Concrete errors, requests and runtimes *)
(* ===================================================================== *)

Module Scenarios.
Import JS ErrorHandler.

(** [Object.prototype.toString] on a plain object. *)
Definition plainToString (v : value) : string := "[object Object]".

Definition runtime (env : value) : Runtime :=
  {| NODE_ENV := env;
     now := "2024-05-01T10:00:00.000Z";
     trace := "Error
    at new AppError (errorHandler.ts:14:11)";
     objectToString := plainToString |}.

Definition development : Runtime := runtime (VStr "development").
Definition production : Runtime := runtime (VStr "production").

Definition request : Request :=
  {| originalUrl := "/api/v1/users/abc"; method := "GET"; ip := VStr "127.0.0.1";
     userAgent := VStr "curl/8.0"; protocol := "http"; host := VStr "localhost:5000" |}.

(** An instance of [Error] or of a class extending it, as the engine builds
    it: own non-enumerable [stack] and [message], the [name] on the
    prototype, and whatever fields the class assigns. *)
Definition errorInstance (name message stack : string) (fields : list (string * value))
  : value :=
  VObj ([ ("stack", (false, VStr stack)); ("message", (false, VStr message)) ]
        ++ map (fun p => (fst p, (true, snd p))) fields)
       [ ("name", VStr name) ].

(** [new Error("boom")]. *)
Definition boom : value :=
  errorInstance "Error" "boom" "Error: boom
    at handler (users.ts:10:9)" [].

(** The driver's error for an identifier that does not parse. *)
Definition castError : value :=
  errorInstance "CastError"
    "Cast to ObjectId failed for value abc (type string) at path _id"
    "CastError: Cast to ObjectId failed"
    [ ("kind", VStr "ObjectId"); ("value", VStr "abc"); ("path", VStr "_id") ].


(** A duplicate-key failure on field [email]. *)
Definition duplicateKey : value :=
  errorInstance "MongoServerError"
    "E11000 duplicate key error collection: shop.users index: email_1"
    "MongoServerError: E11000 duplicate key error"
    [ ("code", VNum 11000); ("keyValue", plain [ ("email", VStr "a@b.com") ]) ].

(** A failure of the invalid-identifier shape that also carries the
    duplicate-key code. *)
Definition castAndDuplicate : value :=
  errorInstance "CastError" "Cast to ObjectId failed" "CastError: Cast to ObjectId failed"
    [ ("value", VStr "abc"); ("path", VStr "_id");
      ("code", VNum 11000); ("keyValue", plain [ ("email", VStr "a@b.com") ]) ].

Definition getApi (url : string) : Request :=
  {| originalUrl := url; method := "GET"; ip := VStr "127.0.0.1";
     userAgent := VStr "curl/8.0"; protocol := "http"; host := VStr "localhost:5000" |}.

End Scenarios.

(* ===================================================================== *)
(** * Facts about the value model *)
(* ===================================================================== *)

Module JSFacts.
Import JS ErrorHandler.

Lemma prefix_app (s b : string) : String.prefix s (s ++ b) = true.
Proof.
  induction s as [|c s IH]; simpl.
  - now destruct b.
  - destruct (Ascii.ascii_dec c c) as [_|N]; [exact IH | now elim N].
Qed.

Lemma prefix_inv (s t : string) : String.prefix s t = true -> exists b, t = s ++ b.
Proof.
  revert t; induction s as [|c s IH]; intros t H.
  - now exists t.
  - destruct t as [|d t]; simpl in H; [discriminate|].
    destruct (Ascii.ascii_dec c d) as [->|_]; [|discriminate].
    destruct (IH t H) as [b ->]. now exists b.
Qed.

Lemma includes_unfold (s t : string) :
  includes s t = String.prefix s t ||
                 match t with
                 | EmptyString => false
                 | String _ t' => includes s t'
                 end.
Proof. now destruct t. Qed.

Lemma includes_spec (s t : string) : includes s t = true <-> Substring s t.
Proof.
  split.
  - induction t as [|c t IH]; rewrite includes_unfold; intros H;
      apply orb_true_iff in H; destruct H as [H|H]; try discriminate.
    + destruct (prefix_inv _ _ H) as [b Hb]. now exists EmptyString, b.
    + destruct (prefix_inv _ _ H) as [b Hb]. now exists EmptyString, b.
    + destruct (IH H) as (a & b & ->). now exists (String c a), b.
  - intros (a & b & ->). induction a as [|c a IH]; rewrite includes_unfold.
    + simpl. now rewrite prefix_app.
    + simpl. rewrite IH. apply orb_true_r.
Qed.

Lemma includes_false (s t : string) : includes s t = false <-> ~ Substring s t.
Proof.
  rewrite <- includes_spec. destruct (includes s t); split; congruence.
Qed.

Lemma assoc_update_same (k : string) (x : value) own :
  exists e, assoc k (update k x own) = Some (e, x).
Proof.
  induction own as [|[k' [e y]] own IH]; simpl.
  - rewrite String.eqb_refl. now exists true.
  - destruct (String.eqb k k') eqn:E; simpl; rewrite E; [now exists e | exact IH].
Qed.

Lemma assoc_update_other (k k' : string) (x : value) own :
  k' <> k -> assoc k' (update k x own) = assoc k' own.
Proof.
  intros N. induction own as [|[k0 [e y]] own IH]; simpl.
  - destruct (String.eqb k' k) eqn:E; [apply String.eqb_eq in E; contradiction | reflexivity].
  - destruct (String.eqb k k0) eqn:E; simpl.
    + apply String.eqb_eq in E; subst k0.
      destruct (String.eqb k' k) eqn:E'; [apply String.eqb_eq in E'; contradiction | reflexivity].
    + now rewrite IH.
Qed.

(** A new enumerable value for an own enumerable property stays visible. *)
Lemma assoc_update_enumerable (k : string) (x y : value) own :
  assoc k own = Some (true, y) -> assoc k (update k x own) = Some (true, x).
Proof.
  induction own as [|[k' [e z]] own IH]; simpl; [discriminate|].
  destruct (String.eqb k k') eqn:E; simpl; rewrite E; [|exact IH].
  now intros [= -> _].
Qed.

(** What the spread copy receives of an own enumerable property. *)
Lemma assoc_spread (k : string) (v : value) own inherited :
  assoc k own = Some (true, v) ->
  assoc k (spread (VObj own inherited)) = Some (true, v).
Proof.
  unfold spread, ownEnumerable.
  induction own as [|[k' [e y]] own IH]; simpl; [discriminate|].
  destruct (String.eqb k k') eqn:E.
  - intros [= -> ->]. simpl. now rewrite E.
  - intros H. destruct e; simpl; [rewrite E|]; now apply IH.
Qed.

(** The copy holds nothing that the error does not own as enumerable. *)
Lemma assoc_spread_none (k : string) own inherited :
  assoc k own = None -> assoc k (spread (VObj own inherited)) = None.
Proof.
  unfold spread, ownEnumerable.
  induction own as [|[k' [e y]] own IH]; simpl; [reflexivity|].
  destruct (String.eqb k k') eqn:E; [discriminate|].
  intros H. destruct e; simpl; [rewrite E|]; now apply IH.
Qed.

Lemma assoc_spread_hidden (k : string) (v : value) own inherited :
  NoDup (map fst own) -> assoc k own = Some (false, v) ->
  assoc k (spread (VObj own inherited)) = None.
Proof.
  unfold spread, ownEnumerable.
  induction own as [|[k' [e y]] own IH]; simpl; [discriminate|].
  intros ND. inversion ND as [|? ? Hnotin ND']; subst.
  destruct (String.eqb k k') eqn:E.
  - intros [= -> ->]. simpl. apply String.eqb_eq in E; subst k'.
    clear IH ND ND'. induction own as [|[k0 [e0 y0]] own IH]; simpl; [reflexivity|].
    simpl in Hnotin.
    destruct e0; simpl.
    + destruct (String.eqb k k0) eqn:E0.
      * apply String.eqb_eq in E0. subst. exfalso. apply Hnotin. now left.
      * apply IH. intros Hin. apply Hnotin. now right.
    + apply IH. intros Hin. apply Hnotin. now right.
  - intros H. destruct e; simpl; [rewrite E|]; now apply IH.
Qed.

Lemma assoc_ownEnumerable_update (k k' : string) (x : value) own inherited :
  k <> k' ->
  assoc k (ownEnumerable (VObj (update k' x own) inherited))
  = assoc k (ownEnumerable (VObj own inherited)).
Proof.
  intros N. unfold ownEnumerable.
  induction own as [|[k0 [e y]] own IH]; simpl.
  - destruct (String.eqb k k') eqn:E; [apply String.eqb_eq in E; contradiction|reflexivity].
  - destruct (String.eqb k' k0) eqn:E0; simpl.
    + apply String.eqb_eq in E0; subst k0.
      destruct e; simpl; [|reflexivity].
      destruct (String.eqb k k') eqn:E; [apply String.eqb_eq in E; contradiction|reflexivity].
    + destruct e; simpl; [|exact IH]. now rewrite IH.
Qed.

Lemma assoc_spread_ownEnumerable (k : string) (v : value) :
  assoc k (spread v)
  = match assoc k (ownEnumerable v) with
    | Some x => Some (true, x)
    | None => None
    end.
Proof.
  unfold spread. induction (ownEnumerable v) as [|[k0 y] l IH]; simpl; [reflexivity|].
  destruct (String.eqb k k0); [reflexivity | exact IH].
Qed.

End JSFacts.

(* ===================================================================== *)
(** * The error handler: symbolic codes and the production formatter *)
(* ===================================================================== *)

Module ErrorHandlerSpec.
Import JS ErrorHandler JSFacts.

Ltac by_code :=
  intros; subst; unfold getErrorCode; simpl; reflexivity.

(** C5.  For every status code and message, [getErrorCode] returns
    ROUTE_NOT_FOUND when the status is 404 and the message contains "find",
    RESOURCE_NOT_FOUND when the status is 404 and it does not, UNAUTHORIZED
    for 401, FORBIDDEN for 403, BAD_REQUEST for 400, CONFLICT for 409,
    VALIDATION_ERROR for 422, RATE_LIMIT_EXCEEDED for 429, and SERVER_ERROR
    for every other status code. *)
Theorem getErrorCode_table (statusCode : Z) (message : string) :
  (statusCode = 404 -> Substring "find" message ->
     getErrorCode (VNum statusCode) (VStr message) = Ok "ROUTE_NOT_FOUND") /\
  (statusCode = 404 -> ~ Substring "find" message ->
     getErrorCode (VNum statusCode) (VStr message) = Ok "RESOURCE_NOT_FOUND") /\
  (statusCode = 401 -> getErrorCode (VNum statusCode) (VStr message) = Ok "UNAUTHORIZED") /\
  (statusCode = 403 -> getErrorCode (VNum statusCode) (VStr message) = Ok "FORBIDDEN") /\
  (statusCode = 400 -> getErrorCode (VNum statusCode) (VStr message) = Ok "BAD_REQUEST") /\
  (statusCode = 409 -> getErrorCode (VNum statusCode) (VStr message) = Ok "CONFLICT") /\
  (statusCode = 422 ->
     getErrorCode (VNum statusCode) (VStr message) = Ok "VALIDATION_ERROR") /\
  (statusCode = 429 ->
     getErrorCode (VNum statusCode) (VStr message) = Ok "RATE_LIMIT_EXCEEDED") /\
  (statusCode <> 404 -> statusCode <> 401 -> statusCode <> 403 ->
   statusCode <> 400 -> statusCode <> 409 -> statusCode <> 422 ->
   statusCode <> 429 ->
     getErrorCode (VNum statusCode) (VStr message) = Ok "SERVER_ERROR").
Proof.
  repeat split; try by_code.
  - intros -> H. apply includes_spec in H.
    unfold getErrorCode; simpl. now rewrite H.
  - intros -> H. apply includes_false in H.
    unfold getErrorCode; simpl. now rewrite H.
  - intros N1 N2 N3 N4 N5 N6 N7. unfold getErrorCode, is_num.
    repeat match goal with
           | |- context [Z.eqb statusCode ?n] =>
               destruct (Z.eqb_spec statusCode n); [contradiction|]
           end.
    reflexivity.
Qed.

Lemma getErrorCode_table_witness :
  getErrorCode (VNum 404) (VStr "Can't find /nowhere on this server!")
    = Ok "ROUTE_NOT_FOUND"
  /\ getErrorCode (VNum 404) (VStr "Resource not found") = Ok "RESOURCE_NOT_FOUND"
  /\ getErrorCode (VNum 418) (VStr "teapot") = Ok "SERVER_ERROR".
Proof.
  split; [|split].
  - apply (proj1 (getErrorCode_table 404 "Can't find /nowhere on this server!"));
      [reflexivity|].
    exists "Can't ", " /nowhere on this server!". reflexivity.
  - apply (proj1 (proj2 (getErrorCode_table 404 "Resource not found")));
      [reflexivity|].
    intros H. apply includes_spec in H. discriminate H.
  - apply (proj2 (proj2 (proj2 (proj2 (proj2 (proj2 (proj2 (proj2
             (getErrorCode_table 418 "teapot"))))))))); lia.
Defined.

(** The generic body of a production response. *)
Lemma sendErrorProd_generic rt error flag :
  get error "isOperational" = Ok flag ->
  truthy flag = false ->
  sendErrorProd rt error =
    Ok {| status := VNum 500;
          json := plain [ ("success", VBool false);
                          ("message", VStr "Internal server error. Please try again later.");
                          ("error", plain [ ("code", VStr "INTERNAL_SERVER_ERROR");
                                            ("timestamp", VStr (now rt)) ]) ];
          logged := [ [VStr "ERROR 💥"; error] ] |}.
Proof.
  intros G F. unfold sendErrorProd. rewrite G. simpl. now rewrite F.
Qed.

(** C1.  In production mode (NODE_ENV other than "development"), an error
    whose isOperational flag is not true - false, or missing, or falsy in
    any other way, which is how the formatter tests it - is answered with
    status 500, the message "Internal server error. Please try again
    later.", the code INTERNAL_SERVER_ERROR, and a body without a stack
    field. *)
Theorem production_hides_non_operational rt error flag :
  is_str (NODE_ENV rt) "development" = false ->
  get error "isOperational" = Ok flag ->
  truthy flag = false ->
  exists sent,
    respond rt error = Ok sent /\
    status sent = VNum 500 /\
    field (json sent) "message"
      = Some (VStr "Internal server error. Please try again later.") /\
    (exists e, field (json sent) "error" = Some e /\
               field e "code" = Some (VStr "INTERNAL_SERVER_ERROR")) /\
    assoc "stack" (ownEnumerable (json sent)) = None /\
    field (json sent) "stack" = None.
Proof.
  intros M G F. unfold respond. rewrite M.
  rewrite (sendErrorProd_generic rt error flag G F).
  eexists; split; [reflexivity|]. simpl.
  repeat split; try reflexivity.
  eexists; split; reflexivity.
Qed.

Lemma production_hides_non_operational_witness :
  is_str (NODE_ENV Scenarios.production) "development" = false /\
  get Scenarios.boom "isOperational" = Ok VUndefined /\
  truthy VUndefined = false /\
  exists sent,
    respond Scenarios.production Scenarios.boom = Ok sent /\
    status sent = VNum 500 /\
    field (json sent) "message"
      = Some (VStr "Internal server error. Please try again later.") /\
    (exists e, field (json sent) "error" = Some e /\
               field e "code" = Some (VStr "INTERNAL_SERVER_ERROR")) /\
    assoc "stack" (ownEnumerable (json sent)) = None /\
    field (json sent) "stack" = None.
Proof.
  split; [reflexivity|]. split; [reflexivity|]. split; [reflexivity|].
  apply (production_hides_non_operational Scenarios.production Scenarios.boom VUndefined);
    reflexivity.
Defined.

(** ** The handlers of the specific shapes *)

Lemma AppError_fields rt message statusCode :
  get (AppError rt message (Some statusCode)) "statusCode" = Ok (VNum statusCode) /\
  get (AppError rt message (Some statusCode)) "message" = Ok (VStr message) /\
  get (AppError rt message (Some statusCode)) "isOperational" = Ok (VBool true) /\
  get (AppError rt message (Some statusCode)) "name" = Ok (VStr "Error") /\
  get (AppError rt message (Some statusCode)) "stack" = Ok (VStr (trace rt)).
Proof. repeat split. Qed.







(** ** Overlapping shapes *)

(** [classify], one replacement after the other. *)
Lemma classify_steps rt err :
  classify rt err =
    let* copy := copyOf err in
    let* e1 := if hasName err "CastError" then handleCastError rt err else Ok copy in
    let* e2 := if hasName err "ValidationError" then handleValidationError rt err else Ok e1 in
    let* e3 := if hasCode err 11000 then handleDuplicateKeyError rt err else Ok e2 in
    let* e4 := if hasName err "JsonWebTokenError" then handleJWTError rt else Ok e3 in
    let* e5 := if hasName err "TokenExpiredError" then handleJWTExpiredError rt else Ok e4 in
    Ok e5.
Proof. destruct err; reflexivity. Qed.

Lemma handleCastError_returns rt err :
  returns (get err "name") = true -> returns (handleCastError rt err) = true.
Proof. destruct err; simpl; try discriminate; reflexivity. Qed.

Lemma copyOf_returns err :
  returns (get err "name") = true -> returns (copyOf err) = true.
Proof. destruct err; simpl; try discriminate; reflexivity. Qed.

Lemma classify_latestRule rt err error :
  classify rt err = Ok error <->
  handlersReturn rt err = true /\ latestRule rt err = Ok error.
Proof.
  rewrite classify_steps. unfold handlersReturn, latestRule.
  destruct (get err "name") as [n|] eqn:G.
  2:{ destruct err; try discriminate G; simpl;
      (split; [discriminate | intros [_ H]; discriminate H]). }
  assert (HC := handleCastError_returns rt err). assert (HK := copyOf_returns err).
  rewrite G in HC, HK. specialize (HC eq_refl). specialize (HK eq_refl).
  unfold handleJWTError, handleJWTExpiredError.
  destruct (copyOf err) as [copy|]; [|discriminate HK].
  destruct (handleCastError rt err) as [ec|]; [|discriminate HC].
  destruct (handleValidationError rt err) as [ev|];
  destruct (handleDuplicateKeyError rt err) as [ed|];
  destruct (hasName err "CastError"), (hasName err "ValidationError"),
           (hasCode err 11000), (hasName err "JsonWebTokenError"),
           (hasName err "TokenExpiredError"); simpl;
  (split; [intros H; split; [reflexivity || discriminate H | exact H || discriminate H]
          | intros [H1 H2]; first [exact H2 | discriminate H1 | discriminate H2]]).
Qed.

Lemma classify_handlersReturn rt err error :
  classify rt err = Ok error -> handlersReturn rt err = true.
Proof. intros C. now apply classify_latestRule in C. Qed.

Lemma classify_latest rt err error :
  classify rt err = Ok error -> latestRule rt err = Ok error.
Proof. intros C. now apply classify_latestRule in C. Qed.

Lemma latest_classify rt err error :
  handlersReturn rt err = true -> latestRule rt err = Ok error ->
  classify rt err = Ok error.
Proof. intros H L. apply classify_latestRule. now split. Qed.

(** C2, as the code has it.  When a failure object matches several of the
    mapping shapes, the handler of every matching rule runs, in the listed
    order, and each replaces the result of the one before: classification
    returns exactly when all of them return, and its result - status code
    and message - is that of the latest matching rule, not of the
    earliest. *)
Theorem latest_matching_rule_wins rt err error :
  classify rt err = Ok error <->
  handlersReturn rt err = true /\ latestRule rt err = Ok error.
Proof.
  split.
  - intros C. split.
    + now apply classify_handlersReturn with error.
    + now apply classify_latest.
  - intros [H L]. now apply latest_classify.
Qed.

(** C2, as the specification states it, fails: a failure with the name
    "CastError" and the code 11000 matches rules 1 and 3, and is classified
    by rule 3 (the uniqueness violation), where "first match wins" would
    give the message of rule 1. *)
Lemma first_match_does_not_win :
  hasName Scenarios.castAndDuplicate "CastError" = true /\
  hasCode Scenarios.castAndDuplicate 11000 = true /\
  (let* e := classify Scenarios.production Scenarios.castAndDuplicate in
   get e "message")
  = Ok (VStr "email 'a@b.com' already exists. Please use another value.") /\
  (let* e := earliestRule Scenarios.production Scenarios.castAndDuplicate in
   get e "message")
  = Ok (VStr "Invalid _id: abc") /\
  (let* sent := globalErrorHandler Scenarios.production Scenarios.castAndDuplicate
                  Scenarios.request in
   Ok (field (json sent) "message"))
  = Ok (Some (VStr "email 'a@b.com' already exists. Please use another value.")) /\
  classify Scenarios.production Scenarios.castAndDuplicate
  <> earliestRule Scenarios.production Scenarios.castAndDuplicate.
Proof.
  repeat split; try reflexivity. vm_compute. discriminate.
Qed.

(** ** The class hierarchy *)

Lemma getErrorCode_string statusCode message :
  exists code, getErrorCode statusCode (VStr message) = Ok code.
Proof.
  unfold getErrorCode. simpl.
  repeat match goal with
         | |- context [if ?b then _ else _] => destruct b
         end; eexists; reflexivity.
Qed.

Lemma Constructed_AppError rt e :
  Constructed rt e -> exists message statusCode, e = AppError rt message (Some statusCode).
Proof.
  intros [m [s|]|m|m|r|m|m|m]; eexists; eexists; reflexivity.
Qed.

Lemma Classified_AppError rt e :
  Classified rt e -> exists message statusCode, e = AppError rt message (Some statusCode).
Proof.
  intros [err e' H|err e' H|err e' H|e' H|e' H].
  - unfold handleCastError in H.
    destruct (get err "path"); [|discriminate H]; simpl in H.
    destruct (get err "value"); [|discriminate H]; simpl in H.
    injection H as <-. eexists; eexists; reflexivity.
  - unfold handleValidationError in H.
    destruct (get err "errors") as [errs|]; [|discriminate H]; simpl in H.
    destruct (Object_values errs) as [subs|]; [|discriminate H]; simpl in H.
    destruct (mapM _ subs); [|discriminate H]; simpl in H.
    injection H as <-. eexists; eexists; reflexivity.
  - unfold handleDuplicateKeyError in H.
    destruct (get err "keyValue") as [kv|]; [|discriminate H]; simpl in H.
    destruct (Object_keys kv) as [keys|]; [|discriminate H]; simpl in H.
    destruct (get kv _); [|discriminate H]; simpl in H.
    injection H as <-. eexists; eexists; reflexivity.
  - injection H as <-. eexists; eexists; reflexivity.
  - injection H as <-. eexists; eexists; reflexivity.
Qed.

Lemma AppError_exposed rt message statusCode :
  is_str (NODE_ENV rt) "development" = false ->
  exists sent,
    respond rt (AppError rt message (Some statusCode)) = Ok sent /\
    status sent = VNum statusCode /\
    field (json sent) "message" = Some (VStr message) /\
    field (json sent) "stack" = None.
Proof.
  intros M. unfold respond. rewrite M. unfold sendErrorProd. simpl.
  destruct (getErrorCode_string (VNum statusCode) message) as [code ->]. simpl.
  eexists; repeat split.
Qed.

(** C10.  Every error constructed through [AppError] or one of its
    subclasses has isOperational = true, [InternalServerError] with its
    status 500 included; every error the classifier itself produces is
    such an error; in production mode the message of such an error reaches
    the client verbatim; and an error whose isOperational is not true was
    not constructed in this hierarchy. *)
Theorem hierarchy_is_operational rt :
  (forall e, Constructed rt e -> get e "isOperational" = Ok (VBool true)) /\
  (forall message,
     get (InternalServerError rt message) "statusCode" = Ok (VNum 500) /\
     get (InternalServerError rt message) "isOperational" = Ok (VBool true)) /\
  (forall e, Classified rt e -> Constructed rt e) /\
  (forall e, Constructed rt e ->
     is_str (NODE_ENV rt) "development" = false ->
     exists message sent,
       get e "message" = Ok (VStr message) /\
       respond rt e = Ok sent /\
       field (json sent) "message" = Some (VStr message)) /\
  (forall v flag,
     get v "isOperational" = Ok flag -> flag <> VBool true -> ~ Constructed rt v).
Proof.
  repeat split.
  - intros e H. destruct (Constructed_AppError rt e H) as (m & s & ->). reflexivity.
  - intros e H. destruct (Classified_AppError rt e H) as (m & s & ->). constructor.
  - intros e H M. destruct (Constructed_AppError rt e H) as (m & s & ->).
    destruct (AppError_exposed rt m s M) as (sent & R & _ & F & _).
    exists m, sent. repeat split; assumption.
  - intros v flag G N H. destruct (Constructed_AppError rt v H) as (m & s & ->).
    apply N. simpl in G. now injection G as <-.
Qed.

Lemma hierarchy_is_operational_witness :
  Constructed Scenarios.production (InternalServerError Scenarios.production None) /\
  get (InternalServerError Scenarios.production None) "isOperational" = Ok (VBool true) /\
  (exists message sent,
     get (InternalServerError Scenarios.production None) "message" = Ok (VStr message) /\
     respond Scenarios.production (InternalServerError Scenarios.production None) = Ok sent /\
     field (json sent) "message" = Some (VStr message)) /\
  (get Scenarios.boom "isOperational" = Ok VUndefined /\
   VUndefined <> VBool true /\
   ~ Constructed Scenarios.production Scenarios.boom).
Proof.
  split; [constructor|]. split; [|split].
  - apply (proj1 (hierarchy_is_operational Scenarios.production)). constructor.
  - apply (proj1 (proj2 (proj2 (proj2 (hierarchy_is_operational Scenarios.production))))).
    + constructor.
    + reflexivity.
  - split; [reflexivity|]. split; [discriminate|].
    apply (proj2 (proj2 (proj2 (proj2 (hierarchy_is_operational Scenarios.production))))
             Scenarios.boom VUndefined); [reflexivity | discriminate].
Defined.

(** ** The middleware as a whole *)

(** The defaults touch [statusCode] and [status] only. *)
Lemma setDefaults_object own inherited :
  exists own1,
    setDefaults (VObj own inherited) = Ok (VObj own1 inherited) /\
    (forall k, k <> "statusCode" -> k <> "status" -> assoc k own1 = assoc k own) /\
    (forall n, assoc "statusCode" own = Some (true, VNum n) -> n <> 0 ->
               assoc "statusCode" own1 = Some (true, VNum n)).
Proof.
  unfold setDefaults. simpl. eexists. split; [reflexivity|]. split.
  - intros k N1 N2. rewrite assoc_update_other by assumption.
    now rewrite assoc_update_other by assumption.
  - intros n H N. rewrite assoc_update_other by discriminate.
    rewrite H. unfold or_else. simpl.
    destruct (Z.eqb_spec n 0) as [->|_]; [contradiction|]. simpl.
    now apply assoc_update_enumerable with (y := VNum n).
Qed.

Lemma get_setDefaults err err1 k :
  setDefaults err = Ok err1 -> k <> "statusCode" -> k <> "status" ->
  get err1 k = get err k.
Proof.
  destruct err as [| | | | |own inherited]; try discriminate.
  intros H N1 N2.
  destruct (setDefaults_object own inherited) as (own1 & E & Hk & _).
  rewrite E in H. injection H as <-. simpl. now rewrite (Hk k N1 N2).
Qed.


Lemma shapes_setDefaults rt err err1 :
  setDefaults err = Ok err1 ->
  (forall s, hasName err1 s = hasName err s) /\
  (forall n, hasCode err1 n = hasCode err n) /\
  handleCastError rt err1 = handleCastError rt err /\
  handleValidationError rt err1 = handleValidationError rt err /\
  handleDuplicateKeyError rt err1 = handleDuplicateKeyError rt err /\
  get err1 "message" = get err "message".
Proof.
  intros H.
  assert (G : forall k, k <> "statusCode" -> k <> "status" -> get err1 k = get err k)
    by (intros; now apply get_setDefaults).
  unfold hasName, hasCode, handleCastError, handleValidationError,
    handleDuplicateKeyError.
  rewrite !G by discriminate. repeat split.
Qed.

Lemma matchesNoShape_setDefaults err err1 :
  setDefaults err = Ok err1 -> matchesNoShape err1 = matchesNoShape err.
Proof.
  intros H. destruct (shapes_setDefaults (Scenarios.production) err err1 H) as (N & C & _).
  unfold matchesNoShape. now rewrite !N, C.
Qed.

Lemma handlersReturn_setDefaults rt err err1 :
  setDefaults err = Ok err1 -> handlersReturn rt err1 = handlersReturn rt err.
Proof.
  intros H. destruct (shapes_setDefaults rt err err1 H) as (N & C & _ & V & D & _).
  unfold handlersReturn. now rewrite !N, C, V, D.
Qed.

(** Writing the response is all the handler does besides logging. *)
Lemma globalErrorHandler_responds rt err req err1 error sent :
  setDefaults err = Ok err1 ->
  classify rt err1 = Ok error ->
  respond rt error = Ok sent ->
  exists sent',
    globalErrorHandler rt err req = Ok sent' /\
    status sent' = status sent /\ json sent' = json sent.
Proof.
  intros D C R. unfold globalErrorHandler. rewrite D. simpl. rewrite C. simpl.
  rewrite R. simpl.
  destruct err as [| | | | |own inherited]; try discriminate D.
  destruct (setDefaults_object own inherited) as (own1 & E & _).
  rewrite E in D. injection D as <-. simpl.
  eexists; repeat split.
Qed.

(** No shape matches: the classified error is the copy. *)
Lemma classify_copy rt err :
  matchesNoShape err = true -> classify rt err = copyOf err.
Proof.
  unfold matchesNoShape. intros H.
  repeat (apply andb_true_iff in H; destruct H as [H ?]).
  rewrite classify_steps.
  repeat match goal with
         | H : negb ?b = true |- _ => apply negb_true_iff in H; rewrite H
         end.
  destruct (copyOf err); reflexivity.
Qed.

(** A shape matches: the classified error is one the classifier made. *)
Lemma classify_shape rt err error :
  matchesNoShape err = false -> classify rt err = Ok error -> Classified rt error.
Proof.
  intros M C. apply classify_latestRule in C. destruct C as [_ L].
  unfold latestRule in L. unfold matchesNoShape in M.
  destruct (hasName err "TokenExpiredError"); [now apply Cl_expired|].
  destruct (hasName err "JsonWebTokenError"); [now apply Cl_jwt|].
  destruct (hasCode err 11000); [now apply Cl_duplicate with err|].
  destruct (hasName err "ValidationError"); [now apply Cl_validation with err|].
  destruct (hasName err "CastError"); [now apply Cl_cast with err|].
  discriminate M.
Qed.


(** The development formatter on an object with a string message. *)
Lemma sendErrorDev_object rt own inherited message :
  is_str (NODE_ENV rt) "development" = true ->
  get (VObj own inherited) "message" = Ok (VStr message) ->
  exists statusCode code name stack,
    get (VObj own inherited) "statusCode" = Ok statusCode /\
    getErrorCode statusCode (VStr message) = Ok code /\
    get (VObj own inherited) "name" = Ok name /\
    get (VObj own inherited) "stack" = Ok stack /\
    sendErrorDev rt (VObj own inherited) =
      Ok {| status := statusCode;
            json := plain [ ("success", VBool false);
                            ("message", VStr message);
                            ("error", plain [ ("code", VStr code);
                                              ("timestamp", VStr (now rt));
                                              ("name", name) ]);
                            ("stack", stack) ];
            logged := [] |}.
Proof.
  intros M G. unfold sendErrorDev. rewrite G, M.
  destruct (get (VObj own inherited) "statusCode") as [sc|] eqn:S; [|discriminate S].
  destruct (get (VObj own inherited) "name") as [n|] eqn:N; [|discriminate N].
  destruct (get (VObj own inherited) "stack") as [st|] eqn:T; [|discriminate T].
  destruct (getErrorCode_string sc message) as [code C].
  exists sc, code, n, st. cbn [bind]. rewrite C. cbn [bind]. repeat split.
Qed.

(** The production formatter on an operational object with a string
    message. *)
Lemma sendErrorProd_object rt own inherited flag message :
  get (VObj own inherited) "isOperational" = Ok flag ->
  truthy flag = true ->
  get (VObj own inherited) "message" = Ok (VStr message) ->
  exists statusCode code,
    get (VObj own inherited) "statusCode" = Ok statusCode /\
    getErrorCode statusCode (VStr message) = Ok code /\
    sendErrorProd rt (VObj own inherited) =
      Ok {| status := statusCode;
            json := plain [ ("success", VBool false);
                            ("message", VStr message);
                            ("error", plain [ ("code", VStr code);
                                              ("timestamp", VStr (now rt)) ]) ];
            logged := [] |}.
Proof.
  intros F T G. unfold sendErrorProd. rewrite F, G. cbn [bind]. rewrite T.
  destruct (get (VObj own inherited) "statusCode") as [sc|] eqn:S; [|discriminate S].
  destruct (getErrorCode_string sc message) as [code C].
  exists sc, code. cbn [bind]. rewrite C. cbn [bind]. repeat split.
Qed.

(** What the copy of an object holds. *)
Lemma copyOf_object own inherited message :
  get (VObj own inherited) "message" = Ok message ->
  exists own',
    copyOf (VObj own inherited) = Ok (VObj own' []) /\
    get (VObj own' []) "message" = Ok message /\
    (forall k v, k <> "message" -> assoc k own = Some (true, v) ->
                 get (VObj own' []) k = Ok v).
Proof.
  intros G. unfold copyOf. rewrite G. simpl.
  eexists. split; [reflexivity|]. split.
  - simpl. destruct (assoc_update_same "message" message (spread (VObj own inherited)))
      as [e ->]. reflexivity.
  - intros k v N H. simpl. rewrite assoc_update_other by assumption.
    now rewrite (assoc_spread k v own inherited H).
Qed.


(** C7.  An error that carries an explicit status code and isOperational =
    true, with a string message, and that matches none of the specific
    shapes, passes through classification unchanged: the classified error
    has the same status code, message and flag, and the response - in
    either mode - has that status code, that message, and the symbolic code
    derived from the two. *)
Theorem operational_error_passes_through rt err req statusCode message :
  carries err "statusCode" (VNum statusCode) -> statusCode <> 0 ->
  carries err "isOperational" (VBool true) ->
  get err "message" = Ok (VStr message) ->
  matchesNoShape err = true ->
  exists err1 error sent code,
    setDefaults err = Ok err1 /\
    classify rt err1 = Ok error /\
    get error "statusCode" = Ok (VNum statusCode) /\
    get error "message" = Ok (VStr message) /\
    get error "isOperational" = Ok (VBool true) /\
    globalErrorHandler rt err req = Ok sent /\
    status sent = VNum statusCode /\
    field (json sent) "message" = Some (VStr message) /\
    getErrorCode (VNum statusCode) (VStr message) = Ok code /\
    (exists e, field (json sent) "error" = Some e /\ field e "code" = Some (VStr code)).
Proof.
  intros HS N HO HM HN.
  destruct err as [| | | | |own inherited]; try contradiction.
  simpl in HS, HO.
  destruct (setDefaults_object own inherited) as (own1 & E & Hk & Hs).
  assert (M1 : get (VObj own1 inherited) "message" = Ok (VStr message)).
  { simpl. rewrite (Hk "message") by discriminate. exact HM. }
  destruct (copyOf_object own1 inherited (VStr message) M1) as (own' & EC & GM & GK).
  assert (C : classify rt (VObj own1 inherited) = Ok (VObj own' [])).
  { rewrite classify_copy; [exact EC|].
    rewrite (matchesNoShape_setDefaults _ _ E). exact HN. }
  assert (GS : get (VObj own' []) "statusCode" = Ok (VNum statusCode)).
  { apply GK; [discriminate|]. now apply Hs. }
  assert (GO : get (VObj own' []) "isOperational" = Ok (VBool true)).
  { apply GK; [discriminate|]. rewrite (Hk "isOperational") by discriminate. exact HO. }
  assert (R : exists sent code,
             respond rt (VObj own' []) = Ok sent /\
             status sent = VNum statusCode /\
             field (json sent) "message" = Some (VStr message) /\
             getErrorCode (VNum statusCode) (VStr message) = Ok code /\
             (exists e, field (json sent) "error" = Some e /\
                        field e "code" = Some (VStr code))).
  { unfold respond. destruct (is_str (NODE_ENV rt) "development") eqn:D.
    - destruct (sendErrorDev_object rt own' [] message D GM)
        as (sc & code & n & st & S1 & S2 & _ & _ & S5).
      rewrite GS in S1. injection S1 as <-.
      rewrite S5. eexists; exists code. repeat split; try assumption.
      eexists; split; reflexivity.
    - destruct (sendErrorProd_object rt own' [] (VBool true) message GO eq_refl GM)
        as (sc & code & S1 & S2 & S3).
      rewrite GS in S1. injection S1 as <-.
      rewrite S3. eexists; exists code. repeat split; try assumption.
      eexists; split; reflexivity. }
  destruct R as (sent & code & R & R1 & R2 & R3 & R4).
  destruct (globalErrorHandler_responds rt _ req _ _ _ E C R) as (sent' & G & G1 & G2).
  exists (VObj own1 inherited), (VObj own' []), sent', code.
  rewrite G1, G2. repeat split; assumption.
Qed.

Lemma operational_error_passes_through_witness :
  exists err1 error sent code,
    setDefaults (NotFoundError Scenarios.production (Some "Product")) = Ok err1 /\
    classify Scenarios.production err1 = Ok error /\
    get error "statusCode" = Ok (VNum 404) /\
    get error "message" = Ok (VStr "Product not found") /\
    get error "isOperational" = Ok (VBool true) /\
    globalErrorHandler Scenarios.production
      (NotFoundError Scenarios.production (Some "Product")) Scenarios.request = Ok sent /\
    status sent = VNum 404 /\
    field (json sent) "message" = Some (VStr "Product not found") /\
    getErrorCode (VNum 404) (VStr "Product not found") = Ok code /\
    (exists e, field (json sent) "error" = Some e /\ field e "code" = Some (VStr code)).
Proof.
  apply (operational_error_passes_through Scenarios.production
           (NotFoundError Scenarios.production (Some "Product")) Scenarios.request
           404 "Product not found").
  - reflexivity.
  - lia.
  - reflexivity.
  - reflexivity.
  - reflexivity.
Defined.


Lemma latestRule_setDefaults rt err err1 :
  setDefaults err = Ok err1 -> matchesNoShape err = false ->
  latestRule rt err1 = latestRule rt err.
Proof.
  intros H M. destruct (shapes_setDefaults rt err err1 H) as (N & C & HC & HV & HD & _).
  unfold latestRule. rewrite !N, C, HC, HV, HD.
  unfold matchesNoShape in M.
  destruct (hasName err "TokenExpiredError"), (hasName err "JsonWebTokenError"),
    (hasCode err 11000), (hasName err "ValidationError"), (hasName err "CastError");
    try reflexivity. discriminate M.
Qed.

Lemma latestRule_returns rt err :
  isObject err = true -> matchesNoShape err = false -> handlersReturn rt err = true ->
  exists error, latestRule rt err = Ok error.
Proof.
  intros O M H. unfold latestRule, handlersReturn, matchesNoShape in *.
  assert (HC : returns (handleCastError rt err) = true)
    by (apply handleCastError_returns; destruct err; try discriminate O; reflexivity).
  destruct (hasName err "TokenExpiredError"); [eexists; reflexivity|].
  destruct (hasName err "JsonWebTokenError"); [eexists; reflexivity|].
  destruct (hasCode err 11000).
  { destruct (handleDuplicateKeyError rt err); [eexists; reflexivity|].
    rewrite andb_false_r in H. discriminate H. }
  destruct (hasName err "ValidationError").
  { destruct (handleValidationError rt err); [eexists; reflexivity|]. discriminate H. }
  destruct (hasName err "CastError"); [|discriminate M].
  destruct (handleCastError rt err); [eexists; reflexivity | discriminate HC].
Qed.

Lemma AppError_development rt message statusCode :
  is_str (NODE_ENV rt) "development" = true ->
  exists sent e,
    respond rt (AppError rt message (Some statusCode)) = Ok sent /\
    status sent = VNum statusCode /\
    field (json sent) "message" = Some (VStr message) /\
    field (json sent) "stack" = Some (VStr (trace rt)) /\
    field (json sent) "error" = Some e /\
    field e "name" = Some (VStr "Error").
Proof.
  intros M. unfold respond. rewrite M. unfold sendErrorDev.
  destruct (getErrorCode_string (VNum statusCode) message) as [code C].
  simpl. rewrite C. rewrite M. simpl.
  eexists; eexists. repeat split.
Qed.

Lemma development_unmatched rt err req message :
  is_str (NODE_ENV rt) "development" = true ->
  isObject err = true ->
  matchesNoShape err = true ->
  get err "message" = Ok (VStr message) ->
  exists sent,
    globalErrorHandler rt err req = Ok sent /\
    field (json sent) "message" = Some (VStr message).
Proof.
  intros D O HN HM.
  destruct err as [| | | | |own inherited]; try discriminate O.
  destruct (setDefaults_object own inherited) as (own1 & E & Hk & _).
  assert (M1 : get (VObj own1 inherited) "message" = Ok (VStr message)).
  { simpl. rewrite (Hk "message") by discriminate. exact HM. }
  destruct (copyOf_object own1 inherited (VStr message) M1) as (own' & EC & GM & _).
  assert (C : classify rt (VObj own1 inherited) = Ok (VObj own' [])).
  { rewrite classify_copy; [exact EC|].
    rewrite (matchesNoShape_setDefaults _ _ E). exact HN. }
  destruct (sendErrorDev_object rt own' [] message D GM)
    as (sc & code & n & st & _ & _ & _ & _ & S).
  assert (R : respond rt (VObj own' []) = Ok
                {| status := sc;
                   json := plain [ ("success", VBool false);
                                   ("message", VStr message);
                                   ("error", plain [ ("code", VStr code);
                                                     ("timestamp", VStr (now rt));
                                                     ("name", n) ]);
                                   ("stack", st) ];
                   logged := [] |})
    by (unfold respond; now rewrite D).
  destruct (globalErrorHandler_responds rt _ req _ _ _ E C R) as (sent' & G & _ & G2).
  exists sent'. split; [exact G|]. rewrite G2. reflexivity.
Qed.

Lemma development_matched rt err req :
  is_str (NODE_ENV rt) "development" = true ->
  isObject err = true ->
  matchesNoShape err = false ->
  handlersReturn rt err = true ->
  exists error message sent e,
    latestRule rt err = Ok error /\
    get error "message" = Ok (VStr message) /\
    globalErrorHandler rt err req = Ok sent /\
    field (json sent) "message" = Some (VStr message) /\
    field (json sent) "stack" = Some (VStr (trace rt)) /\
    field (json sent) "error" = Some e /\
    field e "name" = Some (VStr "Error").
Proof.
  intros D O M H.
  destruct (latestRule_returns rt err O M H) as [error L].
  destruct err as [| | | | |own inherited]; try discriminate O.
  destruct (setDefaults_object own inherited) as (own1 & E & _).
  assert (C : classify rt (VObj own1 inherited) = Ok error).
  { apply classify_latestRule. split.
    - now rewrite (handlersReturn_setDefaults rt _ _ E).
    - now rewrite (latestRule_setDefaults rt _ _ E M). }
  assert (K : Classified rt error).
  { apply classify_shape with (err := VObj own1 inherited); [|exact C].
    now rewrite (matchesNoShape_setDefaults _ _ E). }
  destruct (Classified_AppError rt error K) as (m & s & ->).
  destruct (AppError_development rt m s D) as (sent & e & R & _ & R2 & R3 & R4 & R5).
  destruct (globalErrorHandler_responds rt _ req _ _ _ E C R) as (sent' & G & _ & G2).
  exists (AppError rt m (Some s)), m, sent', e. rewrite G2.
  repeat split; assumption.
Qed.

(** C6, as the code has it.  In development mode the response body follows
    the error as classified.  For an error that matches none of the
    specific shapes (and has a string message) the body carries the
    error's original message.  For an error that matches one of them (the
    handlers returning) the body carries the message of the AppError the
    latest matching rule constructs - not the original message - together
    with a stack field and the name "Error", both those of that AppError. *)
Theorem development_body_follows_classification rt err req :
  is_str (NODE_ENV rt) "development" = true ->
  isObject err = true ->
  (forall message,
     matchesNoShape err = true ->
     get err "message" = Ok (VStr message) ->
     exists sent,
       globalErrorHandler rt err req = Ok sent /\
       field (json sent) "message" = Some (VStr message))
  /\
  (matchesNoShape err = false ->
   handlersReturn rt err = true ->
   exists error message sent e,
     latestRule rt err = Ok error /\
     get error "message" = Ok (VStr message) /\
     globalErrorHandler rt err req = Ok sent /\
     field (json sent) "message" = Some (VStr message) /\
     field (json sent) "stack" = Some (VStr (trace rt)) /\
     field (json sent) "error" = Some e /\
     field e "name" = Some (VStr "Error")).
Proof.
  intros D O. split.
  - intros message. now apply development_unmatched.
  - now apply development_matched.
Qed.

Lemma development_body_follows_classification_witness :
  (exists sent,
     globalErrorHandler Scenarios.development Scenarios.boom Scenarios.request = Ok sent /\
     field (json sent) "message" = Some (VStr "boom"))
  /\
  (exists error message sent e,
     latestRule Scenarios.development Scenarios.castError = Ok error /\
     get error "message" = Ok (VStr message) /\
     globalErrorHandler Scenarios.development Scenarios.castError Scenarios.request
       = Ok sent /\
     field (json sent) "message" = Some (VStr message) /\
     field (json sent) "stack" = Some (VStr (trace Scenarios.development)) /\
     field (json sent) "error" = Some e /\
     field e "name" = Some (VStr "Error")).
Proof.
  split.
  - apply (proj1 (development_body_follows_classification Scenarios.development
                    Scenarios.boom Scenarios.request eq_refl eq_refl) "boom");
      reflexivity.
  - apply (proj2 (development_body_follows_classification Scenarios.development
                    Scenarios.castError Scenarios.request eq_refl eq_refl));
      reflexivity.
Defined.

(** C6, as the specification states it, fails: in development mode the
    response to the driver's invalid-identifier failure carries the
    classifier's message, not the message the error came with. *)
Lemma development_message_is_not_always_the_original :
  get Scenarios.castError "message"
  = Ok (VStr "Cast to ObjectId failed for value abc (type string) at path _id") /\
  (let* sent := globalErrorHandler Scenarios.development Scenarios.castError
                  Scenarios.request in
   Ok (field (json sent) "message"))
  = Ok (Some (VStr "Invalid _id: abc")) /\
  (let* sent := globalErrorHandler Scenarios.development Scenarios.castError
                  Scenarios.request in
   Ok (field (json sent) "message"))
  <> (let* message := get Scenarios.castError "message" in Ok (Some message)).
Proof.
  repeat split; try reflexivity. vm_compute. discriminate.
Qed.

(** The response, in development mode, to [new Error("boom")]: the copy
    made of the error holds neither its stack nor its name, so neither
    reaches the body. *)
Lemma plain_error_in_development :
  get Scenarios.boom "stack" = Ok (VStr "Error: boom
    at handler (users.ts:10:9)") /\
  get Scenarios.boom "name" = Ok (VStr "Error") /\
  (let* sent := globalErrorHandler Scenarios.development Scenarios.boom
                  Scenarios.request in
   Ok (field (json sent) "message", field (json sent) "stack",
       match field (json sent) "error" with
       | Some e => field e "name"
       | None => None
       end))
  = Ok (Some (VStr "boom"), None, None).
Proof. repeat split. Qed.

(** ** Through the whole middleware *)

(** An error that matches no shape and whose copy holds no truthy
    isOperational is answered, in production mode, with the generic 500. *)
Lemma production_unmatched_non_operational rt err req :
  is_str (NODE_ENV rt) "development" = false ->
  isObject err = true ->
  matchesNoShape err = true ->
  (forall flag, assoc "isOperational" (ownEnumerable err) = Some flag ->
                truthy flag = false) ->
  exists sent,
    globalErrorHandler rt err req = Ok sent /\
    status sent = VNum 500 /\
    field (json sent) "message"
      = Some (VStr "Internal server error. Please try again later.") /\
    (exists e, field (json sent) "error" = Some e /\
               field e "code" = Some (VStr "INTERNAL_SERVER_ERROR")) /\
    field (json sent) "stack" = None.
Proof.
  intros M O HN HF.
  destruct err as [| | | | |own inherited]; try discriminate O.
  destruct (setDefaults_object own inherited) as (own1 & E & Hk & _).
  destruct (get (VObj own1 inherited) "message") as [message|] eqn:GM;
    [|discriminate GM].
  destruct (copyOf_object own1 inherited message GM) as (own' & EC & _ & _).
  assert (C : classify rt (VObj own1 inherited) = Ok (VObj own' [])).
  { rewrite classify_copy; [exact EC|].
    rewrite (matchesNoShape_setDefaults _ _ E). exact HN. }
  assert (F : exists flag, get (VObj own' []) "isOperational" = Ok flag /\
                           truthy flag = false).
  { unfold copyOf in EC. rewrite GM in EC. simpl in EC. injection EC as <-.
    simpl. rewrite assoc_update_other by discriminate.
    rewrite assoc_spread_ownEnumerable.
    unfold setDefaults in E. simpl in E. injection E as <-.
    rewrite !assoc_ownEnumerable_update by discriminate.
    destruct (assoc "isOperational" (ownEnumerable (VObj own inherited)))
      as [flag|] eqn:A.
    - exists flag. split; [reflexivity | now apply HF].
    - exists VUndefined. split; reflexivity. }
  destruct F as (flag & GF & TF).
  assert (R := sendErrorProd_generic rt (VObj own' []) flag GF TF).
  assert (R' : respond rt (VObj own' []) = sendErrorProd rt (VObj own' []))
    by (unfold respond; now rewrite M).
  rewrite <- R' in R.
  destruct (globalErrorHandler_responds rt _ req _ _ _ E C R) as (sent' & G & G1 & G2).
  exists sent'. rewrite G1, G2. simpl. repeat split; try assumption.
  eexists; split; reflexivity.
Qed.

(** A failure of the invalid-identifier shape that does not also carry the
    duplicate-key code is classified by its handler. *)
Lemma classify_cast_shape rt err :
  hasName err "CastError" = true -> hasCode err 11000 = false ->
  classify rt err = handleCastError rt err.
Proof.
  intros N C. rewrite classify_steps.
  unfold hasName in *. destruct (get err "name") as [n|] eqn:G; [|discriminate N].
  assert (HK := copyOf_returns err). rewrite G in HK. specialize (HK eq_refl).
  destruct (copyOf err) as [copy|]; [|discriminate HK].
  destruct n; try discriminate N. simpl in N. apply String.eqb_eq in N. subst s.
  rewrite C. simpl. destruct (handleCastError rt err); reflexivity.
Qed.

(** A uniqueness violation that is not also a token failure, and whose
    earlier handlers return, is classified by its handler. *)
Lemma classify_duplicate_shape rt err :
  hasCode err 11000 = true ->
  hasName err "JsonWebTokenError" = false ->
  hasName err "TokenExpiredError" = false ->
  handlersReturn rt err = true ->
  classify rt err = handleDuplicateKeyError rt err.
Proof.
  intros C N1 N2 H.
  assert (L : latestRule rt err = handleDuplicateKeyError rt err)
    by (unfold latestRule; now rewrite N2, N1, C).
  unfold handlersReturn in H. rewrite C in H. simpl in H.
  apply andb_true_iff in H. destruct H as [H1 H2].
  destruct (handleDuplicateKeyError rt err) as [e|] eqn:D; [|discriminate H2].
  apply latest_classify; [|exact L].
  unfold handlersReturn. now rewrite C, D, H1.
Qed.

(** A schema-validation failure that carries no duplicate-key code is
    classified by its handler. *)
Lemma classify_validation_shape rt err :
  hasName err "ValidationError" = true -> hasCode err 11000 = false ->
  classify rt err = handleValidationError rt err.
Proof.
  intros N C. rewrite classify_steps.
  unfold hasName in *. destruct (get err "name") as [n|] eqn:G; [|discriminate N].
  assert (HK := copyOf_returns err). rewrite G in HK. specialize (HK eq_refl).
  assert (HC := handleCastError_returns rt err). rewrite G in HC. specialize (HC eq_refl).
  destruct (copyOf err) as [copy|]; [|discriminate HK].
  destruct n; try discriminate N. simpl in N. apply String.eqb_eq in N. subst s.
  rewrite C. simpl. destruct (handleValidationError rt err); reflexivity.
Qed.

End ErrorHandlerSpec.

(* ===================================================================== *)
(** * The not-found responder *)
(* ===================================================================== *)

Module NotFoundSpec.
Import JS ErrorHandler NotFound JSFacts.

Lemma append_assoc (a b c : string) : (a ++ b) ++ c = a ++ b ++ c.
Proof. induction a as [|x a IH]; simpl; [reflexivity | now rewrite IH]. Qed.

Lemma append_empty (a : string) : a ++ EmptyString = a.
Proof. induction a as [|x a IH]; simpl; [reflexivity | now rewrite IH]. Qed.

Lemma Substring_here (s b : string) : Substring s (s ++ b).
Proof. now exists EmptyString, b. Qed.

Lemma Substring_left (s t u : string) : Substring s t -> Substring s (t ++ u).
Proof.
  intros (a & b & ->). exists a, (b ++ u). now rewrite !append_assoc.
Qed.

Lemma Substring_right (s t u : string) : Substring s u -> Substring s (t ++ u).
Proof.
  intros (a & b & ->). exists (t ++ a), b. now rewrite !append_assoc.
Qed.

Lemma bullets_from (items : list string) (start : string) :
  fold_left (fun message item => message ++ "
  • " ++ item) items start = start ++ bullets items.
Proof.
  unfold bullets. revert start.
  induction items as [|item items IH]; intros start; simpl.
  - now rewrite append_empty.
  - rewrite IH. rewrite (IH (String _ _)). now rewrite !append_assoc.
Qed.

Lemma bullets_first (item : string) (items : list string) :
  Substring item (bullets (item :: items)).
Proof.
  unfold bullets. simpl. rewrite bullets_from.
  exists "
  • ", (bullets items). reflexivity.
Qed.

(** Every group of the directory lists at least one endpoint. *)
Lemma apiRoutes_nonempty (k : string) (l : list string) :
  assoc k apiRoutes = Some l -> l <> [].
Proof.
  unfold apiRoutes. simpl.
  repeat match goal with
         | |- context [String.eqb k ?s] => destruct (String.eqb k s)
         end; intros [= <-] || discriminate; discriminate.
Qed.

Lemma suggestionsFor_nonempty (url : string) (suggestions : list string) :
  suggestionsFor url = Ok suggestions -> suggestions <> [].
Proof.
  unfold suggestionsFor, lookup.
  destruct (nth_error _ 1) as [resource|]; [|intros [= <-]; discriminate].
  destruct (assoc resource apiRoutes) as [l|] eqn:A.
  - intros [= <-]. now apply apiRoutes_nonempty with resource.
  - destruct (existsb _ _); [discriminate | intros [= <-]; discriminate].
Qed.

(** The suggestions are decided by the segment after [api], lower-cased. *)
Lemma suggestionsFor_resource (url url' : string) :
  nth_error (filter nonEmpty (split "/" (toLowerCase url))) 1
  = nth_error (filter nonEmpty (split "/" (toLowerCase url'))) 1 ->
  suggestionsFor url = suggestionsFor url'.
Proof. unfold suggestionsFor. now intros ->. Qed.

(** Where the lookup finds a group of the directory or nothing, the
    responder hands on a 404 error whose message names the method and the
    path and lists the first suggestion. *)
Lemma apiNotFoundHandler_suggests rt req suggestions :
  String.prefix "/api/" (originalUrl req) = true ->
  suggestionsFor (originalUrl req) = Ok suggestions ->
  exists message first rest,
    apiNotFoundHandler rt req = Ok (WithError (AppError rt message (Some 404))) /\
    suggestions = first :: rest /\
    Substring (method req ++ " " ++ originalUrl req) message /\
    Substring first message.
Proof.
  intros P S. unfold apiNotFoundHandler. rewrite P, S. simpl.
  assert (N := suggestionsFor_nonempty _ _ S).
  destruct suggestions as [|first rest]; [contradiction|].
  eexists; exists first, rest. split; [reflexivity|]. split; [reflexivity|].
  unfold notFoundMessage. split.
  - apply Substring_left. exists "API endpoint '", "' not found.".
    now rewrite !append_assoc.
  - apply Substring_right. apply Substring_left. apply Substring_right.
    simpl firstn. apply bullets_first.
Qed.

(** The lookup throws exactly on the members of [Object.prototype]. *)
Lemma suggestionsFor_throws (url : string) :
  suggestionsFor url = TypeError <->
  exists resource,
    nth_error (filter nonEmpty (split "/" (toLowerCase url))) 1 = Some resource /\
    In resource objectPrototypeKeys.
Proof.
  unfold suggestionsFor, lookup.
  destruct (nth_error _ 1) as [resource|].
  - destruct (assoc resource apiRoutes) as [l|] eqn:A.
    + split; [discriminate|]. intros (r & [= <-] & I). exfalso.
      revert A. unfold objectPrototypeKeys in I. simpl in I.
      repeat (destruct I as [<-|I]; [discriminate|]). contradiction.
    + destruct (existsb (String.eqb resource) objectPrototypeKeys) eqn:E.
      * split; [intros _|reflexivity]. exists resource. split; [reflexivity|].
        apply existsb_exists in E. destruct E as (x & I & Q).
        apply String.eqb_eq in Q. now subst.
      * split; [discriminate|]. intros (r & [= <-] & I).
        assert (existsb (String.eqb resource) objectPrototypeKeys = true).
        { apply existsb_exists. exists resource. split; [exact I | apply String.eqb_refl]. }
        congruence.
  - split; [discriminate|]. intros (r & Q & _). discriminate Q.
Qed.

(** C8.  A request for [/api/constructor] - or [/api/__proto__] - starts
    with the reserved prefix and matches no route, yet the responder hands
    on no 404 error: the lookup in the directory finds a member of
    [Object.prototype], and spreading it into the suggestions throws. *)
Theorem api_request_for_prototype_member_throws :
  String.prefix "/api/" (originalUrl (Scenarios.getApi "/api/constructor")) = true /\
  apiNotFoundHandler Scenarios.production (Scenarios.getApi "/api/constructor")
    = TypeError /\
  apiNotFoundHandler Scenarios.production (Scenarios.getApi "/api/__proto__")
    = TypeError /\
  suggestionsFor "/api/xyz123" = Ok commonSuggestions.
Proof. repeat split. Qed.

End NotFoundSpec.

(* ===================================================================== *)
(** * The shutdown sequence *)
(* ===================================================================== *)

Module ServerSpec.
Import Server.

Lemma step_exited p e : exited p = true -> step p e = p.
Proof. intros H. unfold step. now rewrite H. Qed.

Lemma drain_exited n callback p : exited p = true -> drain n callback p = p.
Proof. intros H. destruct n; simpl; [reflexivity | now rewrite H]. Qed.

Lemma exited_nil p : exits p = [] -> exited p = false.
Proof. unfold exited. now intros ->. Qed.

Lemma drain_server n p :
  exits p = [] ->
  exits (drain n onServerClosed p) = match n with O => [] | S _ => [0] end.
Proof.
  intros H. destruct n; simpl; [exact H|].
  rewrite (exited_nil p H). rewrite drain_exited.
  - simpl. now rewrite H.
  - unfold exited. simpl. now rewrite H.
Qed.

Lemma drain_db n p :
  exits p = [] ->
  exits (drain n onDbClosed p) = match n with O => [] | S _ => [0] end.
Proof.
  intros H. destruct n; simpl; [exact H|].
  rewrite (exited_nil p H). rewrite drain_exited.
  - simpl. now rewrite H.
  - unfold exited. simpl. now rewrite H.
Qed.

Lemma gracefulShutdown_server name p :
  server p = true ->
  exits (gracefulShutdown name p) = exits p /\
  serverCloseCalls (gracefulShutdown name p) = S (serverCloseCalls p) /\
  closeCallbacks (gracefulShutdown name p) = S (closeCallbacks p) /\
  server (gracefulShutdown name p) = true /\
  dbListener (gracefulShutdown name p) = dbListener p.
Proof.
  intros H. unfold gracefulShutdown. simpl. rewrite H. simpl. repeat split. exact H.
Qed.

Lemma gracefulShutdown_no_server name p :
  server p = false -> exits (gracefulShutdown name p) = (exits p ++ [0])%list.
Proof. intros H. unfold gracefulShutdown. simpl. now rewrite H. Qed.

Lemma deliver_server signal p :
  server p = true -> exits p = [] ->
  exits (deliver signal p) = [] /\
  serverCloseCalls (deliver signal p) = S (serverCloseCalls p) /\
  closeCallbacks (deliver signal p) = S (closeCallbacks p) /\
  server (deliver signal p) = true.
Proof.
  intros S H. unfold deliver.
  destruct (gracefulShutdown_server (signalName signal) p S) as (E & C & K & V & D).
  rewrite H in E. rewrite (exited_nil _ E).
  destruct signal; cbn [signalName] in *; [repeat split; assumption|].
  destruct (dbListener (gracefulShutdown "SIGINT" p)); simpl; repeat split; assumption.
Qed.

Lemma closing_step p e : closing p -> closing (step p e).
Proof.
  intros [[H C]|H].
  - unfold step. rewrite (exited_nil p H).
    destruct e as [| |signal| |].
    + left. now split.
    + left. now split.
    + destruct (server p) eqn:S.
      * destruct (deliver_server signal p S H) as (E & _ & K & _).
        left. split; [exact E | lia].
      * right. unfold deliver.
        assert (E := gracefulShutdown_no_server (signalName signal) p S).
        rewrite H in E. simpl in E.
        assert (X : exited (gracefulShutdown (signalName signal) p) = true)
          by (unfold exited; now rewrite E).
        now rewrite X.
    + right. rewrite drain_server by exact H.
      destruct (closeCallbacks p); [lia | reflexivity].
    + destruct (dbContinuations p) as [|n] eqn:Q.
      * left. split; [exact H | exact C].
      * right. now rewrite (drain_db (S n)) by exact H.
  - right. rewrite step_exited; [exact H|]. unfold exited. now rewrite H.
Qed.

Lemma closing_run events p : closing p -> closing (run p events).
Proof.
  revert p. induction events as [|e events IH]; intros p H; simpl; [exact H|].
  apply IH. now apply closing_step.
Qed.

Lemma closing_closed p : closing p -> exits (step p ServerClosed) = [0].
Proof.
  intros [[H C]|H].
  - unfold step. rewrite (exited_nil p H). rewrite drain_server by exact H.
    destruct (closeCallbacks p); [lia | reflexivity].
  - rewrite step_exited; [exact H|]. unfold exited. now rewrite H.
Qed.

Lemma closing_exits p : closing p -> exits p = [] \/ exits p = [0].
Proof. intros [[H _]|H]; auto. Qed.

Lemma run_app p events events' : run p (events ++ events') = run (run p events) events'.
Proof. unfold run. apply fold_left_app. Qed.

Lemma run_exited events p : exited p = true -> run p events = p.
Proof.
  intros H. induction events as [|e events IH]; simpl; [reflexivity|].
  now rewrite step_exited.
Qed.

Lemma two_signals p s1 s2 :
  server p = true -> exits p = [] ->
  state (step p (Signal s1)) = ShuttingDown /\
  serverCloseCalls (step (step p (Signal s1)) (Signal s2)) = S (S (serverCloseCalls p)) /\
  exits (step (step p (Signal s1)) (Signal s2)) = [] /\
  closing (step (step p (Signal s1)) (Signal s2)).
Proof.
  intros S H.
  assert (P1 : step p (Signal s1) = deliver s1 p)
    by (unfold step; now rewrite (exited_nil p H)).
  destruct (deliver_server s1 p S H) as (E1 & C1 & K1 & V1).
  rewrite <- P1 in E1, C1, K1, V1.
  assert (P2 : step (step p (Signal s1)) (Signal s2) = deliver s2 (step p (Signal s1)))
    by (unfold step at 1; now rewrite (exited_nil _ E1)).
  destruct (deliver_server s2 _ V1 E1) as (E2 & C2 & K2 & V2).
  rewrite <- P2 in E2, C2, K2, V2.
  repeat split.
  - unfold state. rewrite (exited_nil _ E1). now rewrite C1.
  - now rewrite C2, C1.
  - exact E2.
  - left. split; [exact E2 | lia].
Qed.

(** C9, as the code has it.  With the server started, each of two
    termination signals received before the process has exited runs the
    shutdown listener: after the first the supervisor is ShuttingDown, the
    second calls [server.close] again - two calls for two signals - and
    neither exits.  [process.exit] is then called exactly once, with code 0:
    whatever else happens, once the server's close event arrives the
    process has exited once, and at no time more than once. *)
Theorem every_signal_closes_the_server_again p s1 s2 :
  server p = true -> exits p = [] ->
  state (step p (Signal s1)) = ShuttingDown /\
  serverCloseCalls (step (step p (Signal s1)) (Signal s2)) = S (S (serverCloseCalls p)) /\
  exits (step (step p (Signal s1)) (Signal s2)) = [] /\
  (forall before after,
     exits (run (step (step p (Signal s1)) (Signal s2)) (before ++ ServerClosed :: after))
     = [0]) /\
  (forall events,
     exits (run (step (step p (Signal s1)) (Signal s2)) events) = [] \/
     exits (run (step (step p (Signal s1)) (Signal s2)) events) = [0]).
Proof.
  intros S H. destruct (two_signals p s1 s2 S H) as (T1 & T2 & T3 & T4).
  repeat split; try assumption.
  - intros before after. rewrite run_app. simpl.
    assert (E := closing_closed _ (closing_run before _ T4)).
    rewrite run_exited; [exact E|]. unfold exited. now rewrite E.
  - intros events. apply closing_exits. now apply closing_run.
Qed.

Lemma every_signal_closes_the_server_again_witness :
  server (run boot [DbConnected; Listening]) = true /\
  exits (run boot [DbConnected; Listening]) = [] /\
  serverCloseCalls (run boot [DbConnected; Listening; Signal SIGTERM; Signal SIGINT])
  = 2%nat /\
  exits (run boot [DbConnected; Listening; Signal SIGTERM; Signal SIGINT; ServerClosed])
  = [0].
Proof.
  split; [reflexivity|]. split; [reflexivity|].
  destruct (every_signal_closes_the_server_again (run boot [DbConnected; Listening])
              SIGTERM SIGINT eq_refl eq_refl) as (_ & C & _ & X & _).
  split; [exact C | exact (X [] [])].
Defined.

(** C9, as the specification states it, fails: a second SIGTERM that
    arrives while the supervisor is ShuttingDown enters the sequence again
    and calls [server.close] a second time. *)
Lemma second_signal_closes_the_server_twice :
  state (run boot [DbConnected; Listening; Signal SIGTERM]) = ShuttingDown /\
  serverCloseCalls (run boot [DbConnected; Listening; Signal SIGTERM]) = 1%nat /\
  serverCloseCalls (run boot [DbConnected; Listening; Signal SIGTERM; Signal SIGTERM])
  = 2%nat /\
  console (run boot [DbConnected; Listening; Signal SIGTERM; Signal SIGTERM])
  = [ "
🛑 Received SIGTERM. Starting graceful shutdown...";
      "
🛑 Received SIGTERM. Starting graceful shutdown..." ].
Proof. repeat split. Qed.

End ServerSpec.

(* ===================================================================== *)
(** * More on the error handler *)
(* ===================================================================== *)

Module ErrorHandlerMore.
Import JS ErrorHandler JSFacts ErrorHandlerSpec.

(** ** What the middleware is made of *)

Lemma bind_Ok {A B : Type} (c : result A) (k : A -> result B) (b : B) :
  bind c k = Ok b -> exists a, c = Ok a /\ k a = Ok b.
Proof. destruct c as [a|]; simpl; [intros H; now exists a | discriminate]. Qed.

Lemma setDefaults_inv err err1 :
  setDefaults err = Ok err1 ->
  exists own inherited statusCode st,
    err = VObj own inherited /\
    get err "statusCode" = Ok statusCode /\
    get (VObj (update "statusCode" (or_else statusCode (VNum 500)) own) inherited) "status"
      = Ok st /\
    err1 = VObj (update "status" (or_else st (VStr "error"))
                   (update "statusCode" (or_else statusCode (VNum 500)) own))
                inherited.
Proof.
  destruct err as [| | | | |own inherited]; try discriminate.
  unfold setDefaults. simpl. intros [= <-].
  eexists; eexists; eexists; eexists. repeat split.
Qed.

Lemma globalErrorHandler_inv rt err req sent :
  globalErrorHandler rt err req = Ok sent ->
  exists err1 error sent0 message statusCode stack,
    setDefaults err = Ok err1 /\
    classify rt err1 = Ok error /\
    respond rt error = Ok sent0 /\
    get err1 "message" = Ok message /\
    get err1 "statusCode" = Ok statusCode /\
    get err1 "stack" = Ok stack /\
    status sent = status sent0 /\
    json sent = json sent0 /\
    logged sent =
      (logged sent0 ++
       [ [ VStr ("[" ++ now rt ++ "] ERROR:");
           VObj ([ ("message", (true, message));
                   ("statusCode", (true, statusCode));
                   ("url", (true, VStr (originalUrl req)));
                   ("method", (true, VStr (method req)));
                   ("ip", (true, ip req));
                   ("userAgent", (true, userAgent req)) ]
                 ++ spread (and_then (VBool (is_str (NODE_ENV rt) "development"))
                                     (plain [ ("stack", stack) ])))
                [] ] ])%list.
Proof.
  unfold globalErrorHandler. intros H.
  apply bind_Ok in H. destruct H as (err1 & D & H).
  apply bind_Ok in H. destruct H as (error & C & H).
  apply bind_Ok in H. destruct H as (sent0 & R & H).
  apply bind_Ok in H. destruct H as (message & M & H).
  apply bind_Ok in H. destruct H as (statusCode & S & H).
  apply bind_Ok in H. destruct H as (stack & T & H).
  injection H as <-.
  exists err1, error, sent0, message, statusCode, stack. repeat split; assumption.
Qed.

(** ** Production bodies *)




(** ** The defaults *)

Lemma update_same (k : string) (e : bool) (x : value) own :
  assoc k own = Some (e, x) -> update k x own = own.
Proof.
  induction own as [|[k' [e' y]] own IH]; simpl; [discriminate|].
  destruct (String.eqb k k') eqn:E.
  - now intros [= -> ->].
  - intros H. now rewrite IH.
Qed.

Lemma get_update_same (k : string) (x : value) own inherited :
  get (VObj (update k x own) inherited) k = Ok x.
Proof.
  simpl. destruct (assoc_update_same k x own) as [e ->]. reflexivity.
Qed.

Lemma get_update_other (k k' : string) (x : value) own inherited :
  k' <> k -> get (VObj (update k x own) inherited) k' = get (VObj own inherited) k'.
Proof. intros N. simpl. now rewrite assoc_update_other. Qed.

Lemma truthy_or_else (a b : value) : truthy b = true -> truthy (or_else a b) = true.
Proof. unfold or_else. destruct (truthy a) eqn:E; auto. Qed.

Lemma or_else_truthy (a b : value) : truthy a = true -> or_else a b = a.
Proof. unfold or_else. now intros ->. Qed.

(** X2.  The defaults of lines 142-143 leave the error with a truthy statusCode
    and status, keep a truthy statusCode or status it already had, touch no
    other property, and change nothing when applied again. *)
Theorem setDefaults_settles err err1 :
  setDefaults err = Ok err1 ->
  (exists statusCode st,
     get err1 "statusCode" = Ok statusCode /\ truthy statusCode = true /\
     get err1 "status" = Ok st /\ truthy st = true) /\
  (forall v, get err "statusCode" = Ok v -> truthy v = true ->
             get err1 "statusCode" = Ok v) /\
  (forall v, get err "status" = Ok v -> truthy v = true -> get err1 "status" = Ok v) /\
  (forall k, k <> "statusCode" -> k <> "status" -> get err1 k = get err k) /\
  setDefaults err1 = Ok err1.
Proof.
  intros H. assert (H' := H). apply setDefaults_inv in H.
  destruct H as (own & inherited & sc & st & -> & GS & GT & ->).
  set (sc' := or_else sc (VNum 500)) in *.
  set (st' := or_else st (VStr "error")) in *.
  assert (Tsc : truthy sc' = true) by (now apply truthy_or_else).
  assert (Tst : truthy st' = true) by (now apply truthy_or_else).
  assert (G1 : get (VObj (update "status" st' (update "statusCode" sc' own)) inherited)
                 "statusCode" = Ok sc').
  { rewrite get_update_other by discriminate. apply get_update_same. }
  assert (G2 : get (VObj (update "status" st' (update "statusCode" sc' own)) inherited)
                 "status" = Ok st') by apply get_update_same.
  split; [exists sc', st'; now repeat split|].
  split.
  { intros v Gv Tv. rewrite G1. rewrite Gv in GS. injection GS as <-.
    subst sc'. now rewrite or_else_truthy. }
  split.
  { intros v Gv Tv. rewrite G2.
    rewrite get_update_other in GT by discriminate. rewrite Gv in GT. injection GT as <-.
    subst st'. now rewrite or_else_truthy. }
  split; [intros k N1 N2; now apply get_setDefaults|].
  unfold setDefaults. rewrite G1. cbn [bind]. rewrite (or_else_truthy _ _ Tsc).
  assert (U1 : update "statusCode" sc' (update "status" st' (update "statusCode" sc' own))
               = update "status" st' (update "statusCode" sc' own)).
  { simpl in G1.
    destruct (assoc "statusCode" (update "status" st' (update "statusCode" sc' own)))
      as [[e x]|] eqn:A.
    - injection G1 as ->. now apply update_same with e.
    - exfalso. rewrite assoc_update_other in A by discriminate.
      destruct (assoc_update_same "statusCode" sc' own) as [e E]. congruence. }
  unfold set. rewrite U1. cbn [bind]. rewrite G2. cbn [bind].
  rewrite (or_else_truthy _ _ Tst).
  destruct (assoc_update_same "status" st' (update "statusCode" sc' own)) as [e E].
  now rewrite (update_same _ e _ _ E).
Qed.

Lemma setDefaults_settles_witness :
  exists err1,
    setDefaults Scenarios.boom = Ok err1 /\
    get err1 "statusCode" = Ok (VNum 500) /\
    get err1 "status" = Ok (VStr "error") /\
    setDefaults err1 = Ok err1.
Proof.
  eexists. split; [reflexivity|]. split; [reflexivity|]. split; [reflexivity|].
  apply (proj2 (proj2 (proj2 (proj2 (setDefaults_settles Scenarios.boom _ eq_refl))))).
Defined.

(** ** When the handlers throw *)

Lemma get_throws (v : value) (k : string) : get v k = TypeError <-> nullish v = true.
Proof. destruct v; simpl; split; congruence. Qed.

Lemma get_returns (v : value) (k : string) :
  nullish v = false -> exists x, get v k = Ok x.
Proof. destruct v; simpl; try discriminate; intros _; eexists; reflexivity. Qed.


Lemma mapM_throws {A B : Type} (f : A -> result B) (l : list A) :
  mapM f l = TypeError <-> exists a, In a l /\ f a = TypeError.
Proof.
  induction l as [|a l IH]; simpl.
  - split; [discriminate | intros (a & [] & _)].
  - destruct (f a) as [b|] eqn:F; simpl.
    + destruct (mapM f l) as [bs|]; simpl.
      * split; [discriminate|]. intros (x & [<-|I] & Fx); [congruence|].
        assert (H : Ok bs = TypeError) by (apply IH; now exists x).
        discriminate H.
      * split; [|reflexivity]. intros _.
        destruct (proj1 IH eq_refl) as (x & I & Fx). exists x. split; [now right | exact Fx].
    + split; [|reflexivity]. intros _. exists a. split; [now left | exact F].
Qed.

(** X4.  [handleValidationError] throws exactly when the error, its [errors]
    map or one of the sub-errors in it is [undefined] or [null]. *)
Theorem handleValidationError_throws rt error :
  handleValidationError rt error = TypeError <->
  nullish error = true \/
  exists errors,
    get error "errors" = Ok errors /\
    (nullish errors = true \/
     exists sub, In sub (map snd (ownEnumerable errors)) /\ nullish sub = true).
Proof.
  unfold handleValidationError.
  destruct (get error "errors") as [errors|] eqn:G; simpl.
  - assert (N : nullish error = false)
      by (destruct error; try reflexivity; discriminate G).
    destruct (nullish errors) eqn:NE.
    + assert (V : Object_values errors = TypeError)
        by (destruct errors; try discriminate NE; reflexivity).
      rewrite V. simpl. split; [|reflexivity]. intros _. right. exists errors. auto.
    + assert (V : Object_values errors = Ok (map snd (ownEnumerable errors)))
        by (destruct errors; try discriminate NE; reflexivity).
      rewrite V. simpl.
      destruct (mapM (fun err => get err "message") (map snd (ownEnumerable errors)))
        as [ms|] eqn:MM; simpl.
      * split; [discriminate|]. intros [H|(errs & [= <-] & [H|(sub & I & S)])];
          try congruence.
        assert (T : mapM (fun err => get err "message") (map snd (ownEnumerable errors))
                    = TypeError).
        { apply mapM_throws. exists sub. split; [exact I | now apply get_throws]. }
        congruence.
      * split; [|reflexivity]. intros _. right. exists errors. split; [reflexivity|].
        right. apply mapM_throws in MM. destruct MM as (sub & I & S).
        exists sub. split; [exact I | now apply get_throws in S].
  - apply get_throws in G. split; [now left | reflexivity].
Qed.

(** X5.  [handleDuplicateKeyError] throws exactly when the error or its
    [keyValue] is [undefined] or [null]; an empty [keyValue] does not make
    it throw: it yields a message about the field "undefined". *)
Theorem handleDuplicateKeyError_throws rt error :
  (handleDuplicateKeyError rt error = TypeError <->
   nullish error = true \/
   exists keyValue, get error "keyValue" = Ok keyValue /\ nullish keyValue = true) /\
  (forall keyValue,
     get error "keyValue" = Ok keyValue ->
     nullish keyValue = false ->
     ownEnumerable keyValue = [] ->
     get keyValue "undefined" = Ok VUndefined ->
     handleDuplicateKeyError rt error
     = Ok (AppError rt "undefined 'undefined' already exists. Please use another value."
             (Some 400))).
Proof.
  unfold handleDuplicateKeyError. split.
  - destruct (get error "keyValue") as [kv|] eqn:G; simpl.
    + assert (N : nullish error = false)
        by (destruct error; try reflexivity; discriminate G).
      destruct (nullish kv) eqn:NK.
      * assert (K : Object_keys kv = TypeError)
          by (destruct kv; try discriminate NK; reflexivity).
        rewrite K. simpl. split; [|reflexivity]. intros _. right. now exists kv.
      * assert (K : Object_keys kv = Ok (map fst (ownEnumerable kv)))
          by (destruct kv; try discriminate NK; reflexivity).
        rewrite K. simpl.
        destruct (get_returns kv
                    (toString rt match map fst (ownEnumerable kv) with
                                 | k :: _ => VStr k
                                 | [] => VUndefined
                                 end) NK) as [x ->]. simpl.
        split; [discriminate|]. intros [H|(kv' & [= <-] & H)]; congruence.
    + apply get_throws in G. split; [now left | reflexivity].
  - intros kv G N E U. rewrite G. simpl.
    assert (K : Object_keys kv = Ok []).
    { destruct kv; try discriminate N; unfold Object_keys; now rewrite E. }
    rewrite K. simpl. rewrite U. reflexivity.
Qed.

Lemma handleDuplicateKeyError_throws_witness :
  handleDuplicateKeyError Scenarios.production
    (plain [ ("code", VNum 11000); ("keyValue", plain []) ])
  = Ok (AppError Scenarios.production
          "undefined 'undefined' already exists. Please use another value." (Some 400)).
Proof.
  apply (proj2 (handleDuplicateKeyError_throws Scenarios.production
                  (plain [ ("code", VNum 11000); ("keyValue", plain []) ]))
           (plain [])); reflexivity.
Defined.

(** X6.  When the handler of a shape the error matches throws - a code 11000
    without [keyValue], a ValidationError without [errors] - the middleware
    throws with it and sends nothing, in either mode. *)
Theorem globalErrorHandler_throws rt err req :
  (hasName err "ValidationError" = true /\ handleValidationError rt err = TypeError) \/
  (hasCode err 11000 = true /\ handleDuplicateKeyError rt err = TypeError) ->
  globalErrorHandler rt err req = TypeError.
Proof.
  intros H.
  assert (F : handlersReturn rt err = false).
  { unfold handlersReturn. destruct H as [[N T]|[C T]].
    - now rewrite N, T.
    - rewrite C, T. apply andb_false_r. }
  unfold globalErrorHandler.
  destruct (setDefaults err) as [err1|] eqn:D; [|reflexivity]. cbn [bind].
  destruct (classify rt err1) as [error|] eqn:C; [|reflexivity].
  apply classify_handlersReturn in C.
  rewrite (handlersReturn_setDefaults rt _ _ D) in C. congruence.
Qed.

Lemma globalErrorHandler_throws_witness :
  hasCode (plain [ ("code", VNum 11000); ("message", VStr "E11000 duplicate key") ]) 11000
  = true /\
  globalErrorHandler Scenarios.production
    (plain [ ("code", VNum 11000); ("message", VStr "E11000 duplicate key") ])
    Scenarios.request
  = TypeError.
Proof.
  split; [reflexivity|].
  apply (globalErrorHandler_throws Scenarios.production
           (plain [ ("code", VNum 11000); ("message", VStr "E11000 duplicate key") ])).
  right. split; reflexivity.
Defined.

(** ** The log *)

(** X7.  Whenever the middleware answers, the last line it writes records the
    incoming error - its message and its status code after the defaults,
    whatever was sent - with the request's URL and method; the record holds
    the error's stack in development mode and no stack key otherwise. *)
Theorem log_records_the_incoming_error rt err req sent :
  globalErrorHandler rt err req = Ok sent ->
  exists entry statusCode,
    lastEntry sent = Some entry /\
    get entry "message" = get err "message" /\
    get err "statusCode" = Ok statusCode /\
    get entry "statusCode" = Ok (or_else statusCode (VNum 500)) /\
    get entry "url" = Ok (VStr (originalUrl req)) /\
    get entry "method" = Ok (VStr (method req)) /\
    (if is_str (NODE_ENV rt) "development"
     then exists stack, get err "stack" = Ok stack /\
                        assoc "stack" (ownEnumerable entry) = Some stack
     else assoc "stack" (ownEnumerable entry) = None).
Proof.
  intros H. apply globalErrorHandler_inv in H.
  destruct H as (err1 & error & sent0 & m & sc & st & D & _ & _ & M & S & T & _ & _ & L).
  assert (D' := D). apply setDefaults_inv in D'.
  destruct D' as (own & inherited & sc0 & st0 & E & GS & GT & E1).
  assert (K : forall k, k <> "statusCode" -> k <> "status" -> get err1 k = get err k)
    by (intros; now apply get_setDefaults).
  rewrite K in M, T by discriminate.
  assert (S' : sc = or_else sc0 (VNum 500)).
  { rewrite E1 in S. rewrite get_update_other in S by discriminate.
    rewrite get_update_same in S. now injection S as <-. }
  eexists; exists sc0. split.
  { unfold lastEntry. rewrite L. rewrite rev_app_distr. simpl. reflexivity. }
  split; [simpl; now rewrite M|].
  split; [exact GS|].
  split; [simpl; now rewrite S'|].
  split; [reflexivity|]. split; [reflexivity|].
  destruct (is_str (NODE_ENV rt) "development"); simpl.
  - exists st. split; [exact T | reflexivity].
  - reflexivity.
Qed.

Lemma log_records_the_incoming_error_witness :
  exists sent entry,
    globalErrorHandler Scenarios.production Scenarios.castError Scenarios.request = Ok sent /\
    status sent = VNum 400 /\
    lastEntry sent = Some entry /\
    get entry "statusCode" = Ok (VNum 500) /\
    get entry "message" = get Scenarios.castError "message" /\
    assoc "stack" (ownEnumerable entry) = None.
Proof.
  destruct (log_records_the_incoming_error Scenarios.production Scenarios.castError
              Scenarios.request _ eq_refl)
    as (entry & sc & L & M & S & SC & _ & _ & T).
  eexists; exists entry. split; [reflexivity|]. split; [reflexivity|].
  split; [exact L|]. injection S as <-.
  split; [exact SC|]. split; [exact M | exact T].
Defined.

(** ** From the classified error to the answer *)

Lemma respond_AppError rt message statusCode code :
  getErrorCode (VNum statusCode) (VStr message) = Ok code ->
  exists sent e,
    respond rt (AppError rt message (Some statusCode)) = Ok sent /\
    status sent = VNum statusCode /\
    field (json sent) "message" = Some (VStr message) /\
    field (json sent) "error" = Some e /\
    field e "code" = Some (VStr code).
Proof.
  intros C. unfold respond, sendErrorDev, sendErrorProd.
  destruct (is_str (NODE_ENV rt) "development"); simpl; rewrite C; simpl;
    eexists; eexists; repeat split.
Qed.

Lemma answers_classified rt err req err1 message statusCode code :
  setDefaults err = Ok err1 ->
  classify rt err1 = Ok (AppError rt message (Some statusCode)) ->
  getErrorCode (VNum statusCode) (VStr message) = Ok code ->
  answers rt err req statusCode code message.
Proof.
  intros D C G.
  destruct (respond_AppError rt message statusCode code G) as (sent & e & R & S & M & E & K).
  destruct (globalErrorHandler_responds rt _ req _ _ _ D C R) as (sent' & H & H1 & H2).
  exists sent', e. rewrite H1, H2. repeat split; assumption.
Qed.

(** An error of the hierarchy with a non-zero status: statusCode and
    isOperational survive the copy, no shape matches. *)
Lemma answers_AppError rt req message statusCode code :
  statusCode <> 0 ->
  getErrorCode (VNum statusCode) (VStr message) = Ok code ->
  answers rt (AppError rt message (Some statusCode)) req statusCode code message.
Proof.
  intros N G. unfold answers, globalErrorHandler, setDefaults.
  simpl. unfold or_else. simpl.
  destruct (Z.eqb_spec statusCode 0) as [->|_]; [contradiction|]. simpl.
  unfold respond, sendErrorDev, sendErrorProd.
  destruct (is_str (NODE_ENV rt) "development") eqn:D; simpl; rewrite G; simpl;
    eexists; eexists; repeat split.
Qed.

(** ** The class hierarchy, end to end *)

(** X8.  Each class of the hierarchy is answered, in either mode, with its own
    status code, the symbolic code of that status and its message as
    given: 401 UNAUTHORIZED, 403 FORBIDDEN, 409 CONFLICT, 400 BAD_REQUEST
    and, for [InternalServerError], 500 SERVER_ERROR with the message
    exposed. *)
Theorem hierarchy_answers rt req message :
  answers rt (AuthenticationError rt message) req 401 "UNAUTHORIZED"
    (orDefault message "Authentication failed") /\
  answers rt (AuthorizationError rt message) req 403 "FORBIDDEN"
    (orDefault message "You are not authorized to perform this action") /\
  answers rt (ConflictError rt message) req 409 "CONFLICT"
    (orDefault message "Resource already exists") /\
  answers rt (BadRequestError rt message) req 400 "BAD_REQUEST"
    (orDefault message "Bad request") /\
  answers rt (InternalServerError rt message) req 500 "SERVER_ERROR"
    (orDefault message "Internal server error").
Proof.
  repeat split; apply answers_AppError; try discriminate; reflexivity.
Qed.

(** X9.  An [AppError] made with status 0 is answered with status 500: the
    defaults take 0 for a missing status. *)
Theorem zero_status_becomes_500 rt req message :
  answers rt (AppError rt message (Some 0)) req 500 "SERVER_ERROR" message.
Proof.
  unfold answers, globalErrorHandler, setDefaults. simpl.
  unfold respond, sendErrorDev, sendErrorProd.
  destruct (is_str (NODE_ENV rt) "development") eqn:D; simpl;
    eexists; eexists; repeat split.
Qed.

(** ** "find" in a message *)

Lemma prefix_cons (a c : ascii) (p t : string) :
  String.prefix (String a p) (String c t)
  = if Ascii.ascii_dec a c then String.prefix p t else false.
Proof. reflexivity. Qed.

Lemma prefix_find_app (y b : string) :
  startsApart b = true -> y <> EmptyString ->
  String.prefix "find" (y ++ b) = String.prefix "find" y.
Proof.
  intros A N.
  assert (B : forall p c, In c ["i"; "n"; "d"]%char ->
                          String.prefix (String c p) b = false).
  { intros p c I. destruct b as [|d b]; [reflexivity|]. rewrite prefix_cons.
    destruct (Ascii.ascii_dec c d) as [<-|_]; [|reflexivity].
    unfold startsApart in A. simpl in I.
    destruct I as [<-|[<-|[<-|[]]]]; discriminate A. }
  destruct y as [|c1 y]; [contradiction|]. cbn [append]. rewrite !prefix_cons.
  destruct (Ascii.ascii_dec "f" c1) as [_|_]; [|reflexivity].
  destruct y as [|c2 y]; [cbn [append]; apply B; simpl; auto|].
  cbn [append]. rewrite !prefix_cons.
  destruct (Ascii.ascii_dec "i" c2) as [_|_]; [|reflexivity].
  destruct y as [|c3 y]; [cbn [append]; apply B; simpl; auto|].
  cbn [append]. rewrite !prefix_cons.
  destruct (Ascii.ascii_dec "n" c3) as [_|_]; [|reflexivity].
  destruct y as [|c4 y]; [cbn [append]; apply B; simpl; auto|].
  cbn [append]. rewrite !prefix_cons.
  destruct (Ascii.ascii_dec "d" c4) as [_|_]; [|reflexivity].
  destruct (y ++ b), y; reflexivity.
Qed.

(** A text without "find" that starts apart adds no "find" when appended. *)
Lemma includes_find_app (x b : string) :
  includes "find" b = false -> startsApart b = true ->
  includes "find" (x ++ b) = includes "find" x.
Proof.
  intros F A. induction x as [|c x IH].
  - simpl append. rewrite F. reflexivity.
  - change (String c x ++ b) with (String c (x ++ b)).
    rewrite (includes_unfold "find" (String c (x ++ b))).
    rewrite (includes_unfold "find" (String c x)).
    rewrite IH.
    change (String c (x ++ b)) with (String c x ++ b).
    rewrite prefix_find_app by (assumption || discriminate). reflexivity.
Qed.

(** X10.  [notFound]'s error is answered, in either mode, with status 404, the
    code ROUTE_NOT_FOUND and its message, whatever the URL. *)
Theorem notFound_answers rt req req' :
  answers rt (notFound rt req') req 404 "ROUTE_NOT_FOUND"
    ("Can't find " ++ originalUrl req' ++ " on this server!").
Proof.
  apply answers_AppError; [discriminate|].
  unfold getErrorCode. simpl is_num. cbn [includes_method bind].
  replace (includes "find" ("Can't find " ++ originalUrl req' ++ " on this server!"))
    with true; [reflexivity|].
  symmetry. apply includes_spec.
  exists "Can't ", (" " ++ originalUrl req' ++ " on this server!"). reflexivity.
Qed.

(** X11.  A [NotFoundError] is answered with status 404 and the code
    RESOURCE_NOT_FOUND, unless the resource's name contains "find": then
    the code is ROUTE_NOT_FOUND. *)
Theorem NotFoundError_answers rt req resource :
  (Substring "find" (orDefault resource "Resource") ->
   answers rt (NotFoundError rt resource) req 404 "ROUTE_NOT_FOUND"
     (orDefault resource "Resource" ++ " not found")) /\
  (~ Substring "find" (orDefault resource "Resource") ->
   answers rt (NotFoundError rt resource) req 404 "RESOURCE_NOT_FOUND"
     (orDefault resource "Resource" ++ " not found")).
Proof.
  assert (E : includes "find" (orDefault resource "Resource" ++ " not found")
              = includes "find" (orDefault resource "Resource"))
    by (apply includes_find_app; reflexivity).
  split; intros H; apply answers_AppError; try discriminate;
    unfold getErrorCode; simpl is_num; cbn [includes_method bind]; rewrite E.
  - apply includes_spec in H. now rewrite H.
  - apply includes_false in H. now rewrite H.
Qed.

Lemma NotFoundError_answers_witness :
  answers Scenarios.production (NotFoundError Scenarios.production (Some "Pathfinder"))
    Scenarios.request 404 "ROUTE_NOT_FOUND" "Pathfinder not found" /\
  answers Scenarios.production (NotFoundError Scenarios.production None)
    Scenarios.request 404 "RESOURCE_NOT_FOUND" "Resource not found".
Proof.
  split.
  - apply (proj1 (NotFoundError_answers Scenarios.production Scenarios.request
                    (Some "Pathfinder"))).
    exists "Path", "er". reflexivity.
  - apply (proj2 (NotFoundError_answers Scenarios.production Scenarios.request None)).
    intros H. apply includes_spec in H. discriminate H.
Defined.

(** ** The specific shapes, end to end *)

Lemma answers_shape rt err req message statusCode code :
  isObject err = true ->
  matchesNoShape err = false ->
  handlersReturn rt err = true ->
  latestRule rt err = Ok (AppError rt message (Some statusCode)) ->
  getErrorCode (VNum statusCode) (VStr message) = Ok code ->
  answers rt err req statusCode code message.
Proof.
  intros O M H L G.
  destruct err as [| | | | |own inherited]; try discriminate O.
  destruct (setDefaults_object own inherited) as (own1 & E & _).
  apply answers_classified with (err1 := VObj own1 inherited); [exact E | | exact G].
  apply latest_classify.
  - now rewrite (handlersReturn_setDefaults rt _ _ E).
  - now rewrite (latestRule_setDefaults rt _ _ E M).
Qed.

Lemma hasName_exclusive err a b :
  hasName err a = true -> a <> b -> hasName err b = false.
Proof.
  unfold hasName. destruct (get err "name") as [[| | | |s|]|]; simpl; try discriminate.
  intros H N. apply String.eqb_eq in H. subst s.
  destruct (String.eqb a b) eqn:E; [apply String.eqb_eq in E; contradiction|reflexivity].
Qed.

Lemma matched_by_name err a :
  hasName err a = true ->
  In a [ "CastError"; "ValidationError"; "JsonWebTokenError"; "TokenExpiredError" ] ->
  matchesNoShape err = false.
Proof.
  intros H I. unfold matchesNoShape. simpl in I.
  destruct I as [<-|[<-|[<-|[<-|[]]]]]; rewrite H; simpl;
    repeat rewrite andb_false_r; reflexivity.
Qed.

(** X12.  A token failure - named JsonWebTokenError or TokenExpiredError - is
    answered, in either mode and whatever else the error holds, with
    status 401, the code UNAUTHORIZED and the fixed message of its kind. *)
Theorem token_failures_answered rt err req :
  isObject err = true ->
  handlersReturn rt err = true ->
  (hasName err "JsonWebTokenError" = true ->
   answers rt err req 401 "UNAUTHORIZED" "Invalid token. Please log in again.") /\
  (hasName err "TokenExpiredError" = true ->
   answers rt err req 401 "UNAUTHORIZED" "Your token has expired. Please log in again.").
Proof.
  intros O H. split; intros N.
  - apply answers_shape; try assumption; try reflexivity.
    + apply matched_by_name with "JsonWebTokenError"; [exact N | simpl; auto].
    + unfold latestRule.
      rewrite (hasName_exclusive err _ "TokenExpiredError" N) by discriminate.
      now rewrite N.
  - apply answers_shape; try assumption; try reflexivity.
    + apply matched_by_name with "TokenExpiredError"; [exact N | simpl; auto].
    + unfold latestRule. now rewrite N.
Qed.

Lemma token_failures_answered_witness :
  answers Scenarios.production
    (Scenarios.errorInstance "TokenExpiredError" "jwt expired" "TokenExpiredError: jwt expired"
       [ ("expiredAt", VStr "2024-04-30T10:00:00.000Z") ])
    Scenarios.request 401 "UNAUTHORIZED" "Your token has expired. Please log in again.".
Proof.
  apply (proj2 (token_failures_answered Scenarios.production
                  (Scenarios.errorInstance "TokenExpiredError" "jwt expired"
                     "TokenExpiredError: jwt expired"
                     [ ("expiredAt", VStr "2024-04-30T10:00:00.000Z") ])
                  Scenarios.request eq_refl eq_refl)).
  reflexivity.
Defined.

(** X13.  A failure of the invalid-identifier shape that carries no code 11000 is
    answered, in either mode, with status 400, the code BAD_REQUEST and
    "Invalid <path>: <value>"; a uniqueness violation that is not also a
    token failure, its earlier handlers returning, with status 400,
    BAD_REQUEST and the message about the first field of [keyValue]. *)
Theorem data_failures_answered rt err req :
  isObject err = true ->
  (forall path value,
     hasName err "CastError" = true -> hasCode err 11000 = false ->
     get err "path" = Ok path -> get err "value" = Ok value ->
     answers rt err req 400 "BAD_REQUEST"
       ("Invalid " ++ toString rt path ++ ": " ++ toString rt value)) /\
  (forall keyValue first rest value,
     hasCode err 11000 = true ->
     hasName err "JsonWebTokenError" = false ->
     hasName err "TokenExpiredError" = false ->
     handlersReturn rt err = true ->
     get err "keyValue" = Ok keyValue ->
     Object_keys keyValue = Ok (first :: rest) ->
     get keyValue first = Ok value ->
     answers rt err req 400 "BAD_REQUEST"
       (first ++ " '" ++ toString rt value
        ++ "' already exists. Please use another value.")).
Proof.
  intros O. split.
  - intros path value N C P V. apply answers_shape; try assumption; try reflexivity.
    + apply matched_by_name with "CastError"; [exact N | simpl; auto].
    + unfold handlersReturn.
      rewrite (hasName_exclusive err _ "ValidationError" N) by discriminate.
      now rewrite C.
    + unfold latestRule.
      rewrite (hasName_exclusive err _ "TokenExpiredError" N) by discriminate.
      rewrite (hasName_exclusive err _ "JsonWebTokenError" N) by discriminate.
      rewrite C.
      rewrite (hasName_exclusive err _ "ValidationError" N) by discriminate.
      rewrite N. unfold handleCastError. rewrite P, V. reflexivity.
  - intros keyValue first rest value C N1 N2 H K KS V.
    apply answers_shape; try assumption; try reflexivity.
    + unfold matchesNoShape. rewrite C. simpl. now rewrite !andb_false_r.
    + unfold latestRule. rewrite N2, N1, C.
      unfold handleDuplicateKeyError. rewrite K. cbn [bind]. rewrite KS. cbn [bind].
      cbn [toString]. rewrite V. reflexivity.
Qed.

Lemma data_failures_answered_witness :
  answers Scenarios.production Scenarios.castError Scenarios.request 400 "BAD_REQUEST"
    "Invalid _id: abc" /\
  answers Scenarios.production Scenarios.duplicateKey Scenarios.request 400 "BAD_REQUEST"
    "email 'a@b.com' already exists. Please use another value.".
Proof.
  split.
  - apply (proj1 (data_failures_answered Scenarios.production Scenarios.castError
                    Scenarios.request eq_refl) (VStr "_id") (VStr "abc")); reflexivity.
  - apply (proj2 (data_failures_answered Scenarios.production Scenarios.duplicateKey
                    Scenarios.request eq_refl)
             (plain [ ("email", VStr "a@b.com") ]) "email" [] (VStr "a@b.com"));
      reflexivity.
Defined.

(** ** The other helpers *)

Lemma formatValidationError_throws error :
  formatValidationError error = TypeError <-> nullish error = true.
Proof.
  unfold formatValidationError. destruct error; simpl; split; congruence.
Qed.

Lemma formatValidationError_fills error entry :
  formatValidationError error = Ok entry ->
  exists fld message,
    get entry "field" = Ok fld /\ truthy fld = true /\
    get entry "message" = Ok message /\ truthy message = true.
Proof.
  unfold formatValidationError. intros H.
  apply bind_Ok in H. destruct H as (path & _ & H).
  apply bind_Ok in H. destruct H as (fld & _ & H).
  apply bind_Ok in H. destruct H as (message & _ & H).
  injection H as <-.
  exists (or_else (or_else path fld) (VStr "unknown")),
         (or_else message (VStr "Invalid value")).
  repeat split; now apply truthy_or_else.
Qed.

Lemma mapM_Forall2 {A B : Type} (f : A -> result B) (l : list A) (out : list B) :
  mapM f l = Ok out -> Forall2 (fun a b => f a = Ok b) l out.
Proof.
  revert out. induction l as [|a l IH]; simpl; intros out H.
  - injection H as <-. constructor.
  - apply bind_Ok in H. destruct H as (b & F & H).
    apply bind_Ok in H. destruct H as (bs & M & H). injection H as <-.
    constructor; [exact F | now apply IH].
Qed.

(** X14.  [formatValidationErrors] throws exactly when one of the errors is
    [undefined] or [null]; otherwise it returns one record per error, in
    order, and in every record both [field] and [message] are truthy: a
    missing or empty one is replaced by its default. *)
Theorem formatValidationErrors_fills errors :
  (formatValidationErrors errors = TypeError <->
   exists error, In error errors /\ nullish error = true) /\
  (forall out,
     formatValidationErrors errors = Ok out ->
     length out = length errors /\
     forall entry, In entry out ->
       exists fld message,
         get entry "field" = Ok fld /\ truthy fld = true /\
         get entry "message" = Ok message /\ truthy message = true).
Proof.
  unfold formatValidationErrors. split.
  - rewrite mapM_throws. split; intros (error & I & H); exists error; split;
      try assumption; now apply formatValidationError_throws.
  - intros out H. apply mapM_Forall2 in H. split.
    + symmetry. now apply Forall2_length with (1 := H).
    + intros entry I. induction H as [|error entry' errors out F _ IH]; [contradiction|].
      destruct I as [<-|I]; [now apply formatValidationError_fills with error | now apply IH].
Qed.

Lemma formatValidationErrors_fills_witness :
  formatValidationErrors [ plain [ ("path", VStr "email"); ("message", VStr "required") ];
                           plain [ ("field", VStr "age") ];
                           plain [] ]
  = Ok [ plain [ ("field", VStr "email"); ("message", VStr "required") ];
         plain [ ("field", VStr "age"); ("message", VStr "Invalid value") ];
         plain [ ("field", VStr "unknown"); ("message", VStr "Invalid value") ] ]
  /\ length [ plain [ ("field", VStr "email"); ("message", VStr "required") ];
              plain [ ("field", VStr "age"); ("message", VStr "Invalid value") ];
              plain [ ("field", VStr "unknown"); ("message", VStr "Invalid value") ] ]
     = 3%nat.
Proof.
  split; [reflexivity|].
  apply (proj2 (formatValidationErrors_fills
                  [ plain [ ("path", VStr "email"); ("message", VStr "required") ];
                    plain [ ("field", VStr "age") ];
                    plain [] ]) _ eq_refl).
Defined.

(** [handleFileUploadError] answers only the three upload-limit codes, and
    always with status 400; any other error - whatever its code - is
    handed to [next] as it came; it throws only on [undefined] or [null]. *)
Theorem handleFileUploadError_dispatch error :
  (handleFileUploadError error = TypeError <-> nullish error = true) /\
  (forall sent,
     handleFileUploadError error = Ok (Answered sent) ->
     status sent = VNum 400 /\
     exists code,
       get error "code" = Ok (VStr code) /\
       In code [ "LIMIT_FILE_SIZE"; "LIMIT_FILE_COUNT"; "LIMIT_UNEXPECTED_FILE" ]) /\
  (forall error',
     handleFileUploadError error = Ok (Forwarded error') -> error' = error).
Proof.
  unfold handleFileUploadError. split; [|split].
  - destruct (get error "code") as [code|] eqn:G; simpl.
    + assert (N : nullish error = false)
        by (destruct error; try reflexivity; discriminate G).
      rewrite N.
      repeat match goal with
             | |- context [if ?b then _ else _] => destruct b
             end; split; discriminate.
    + apply get_throws in G. now rewrite G.
  - intros sent H. apply bind_Ok in H. destruct H as (code & G & H).
    destruct code as [| | | |s|]; simpl in H; try discriminate H.
    destruct (String.eqb s "LIMIT_FILE_SIZE") eqn:E1.
    { injection H as <-. apply String.eqb_eq in E1. subst s.
      split; [reflexivity|]. eexists; split; [exact G | simpl; auto]. }
    destruct (String.eqb s "LIMIT_FILE_COUNT") eqn:E2.
    { injection H as <-. apply String.eqb_eq in E2. subst s.
      split; [reflexivity|]. eexists; split; [exact G | simpl; auto]. }
    destruct (String.eqb s "LIMIT_UNEXPECTED_FILE") eqn:E3; [|discriminate H].
    injection H as <-. apply String.eqb_eq in E3. subst s.
    split; [reflexivity|]. eexists; split; [exact G | simpl; auto].
  - intros error' H. apply bind_Ok in H. destruct H as (code & _ & H).
    repeat match type of H with
           | context [if ?b then _ else _] => destruct b
           end; try discriminate H. now injection H as <-.
Qed.

Lemma handleFileUploadError_dispatch_witness :
  handleFileUploadError (plain [ ("code", VStr "LIMIT_FILE_SIZE") ])
  = Ok (Answered (uploadRejection "File too large. Maximum size allowed is 5MB.")) /\
  status (uploadRejection "File too large. Maximum size allowed is 5MB.") = VNum 400.
Proof.
  split; [reflexivity|].
  apply (proj1 (proj2 (handleFileUploadError_dispatch
                         (plain [ ("code", VStr "LIMIT_FILE_SIZE") ]))) _ eq_refl).
Defined.

End ErrorHandlerMore.

(* ===================================================================== *)
(** * More on the not-found responder *)
(* ===================================================================== *)

Module NotFoundMore.
Import JS ErrorHandler NotFound JSFacts ErrorHandlerSpec NotFoundSpec ErrorHandlerMore.

(** ** Segments of a path *)

Lemma toLowerCase_app (a b : string) :
  toLowerCase (a ++ b) = toLowerCase a ++ toLowerCase b.
Proof. induction a as [|c a IH]; simpl; [reflexivity | now rewrite IH]. Qed.

Lemma lowerAscii_slash (c : ascii) : Ascii.eqb (lowerAscii c) "/" = Ascii.eqb c "/".
Proof. destruct c as [[] [] [] [] [] [] [] []]; reflexivity. Qed.

Lemma holds_toLowerCase (s : string) : holds "/" (toLowerCase s) = holds "/" s.
Proof.
  induction s as [|c s IH]; simpl; [reflexivity|]. now rewrite lowerAscii_slash, IH.
Qed.

Lemma split_nonempty (sep : ascii) (s : string) : split sep s <> [].
Proof.
  destruct s as [|c s]; simpl; [discriminate|].
  destruct (Ascii.eqb c sep); [discriminate|].
  destruct (split sep s); discriminate.
Qed.

Lemma split_whole (sep : ascii) (s : string) : holds sep s = false -> split sep s = [s].
Proof.
  induction s as [|c s IH]; simpl; [reflexivity|].
  intros H. apply orb_false_iff in H. destruct H as [H1 H2].
  rewrite H1. now rewrite (IH H2).
Qed.

Lemma split_at (sep : ascii) (a b : string) :
  split sep (a ++ String sep b) = (split sep a ++ split sep b)%list.
Proof.
  induction a as [|c a IH]; simpl.
  - now rewrite Ascii.eqb_refl.
  - destruct (Ascii.eqb c sep); [now rewrite IH|].
    rewrite IH. destruct (split sep a) as [|piece pieces] eqn:E; [|reflexivity].
    now elim (split_nonempty sep a).
Qed.

Lemma toLowerCase_empty (s : string) : toLowerCase s = EmptyString -> s = EmptyString.
Proof. destruct s; simpl; [reflexivity | discriminate]. Qed.

(** X15.  The suggestions for [/api/<segment>] and for any path below it are
    those of the segment, lower-cased: the rest of the path and the case of
    the letters play no part. *)
Theorem first_segment_decides (segment rest : string) :
  holds "/" segment = false -> segment <> EmptyString ->
  suggestionsFor ("/api/" ++ segment)
  = match lookup (toLowerCase segment) with
    | Routes l => Ok l
    | Inherited => TypeError
    | Missing => Ok commonSuggestions
    end /\
  suggestionsFor ("/api/" ++ segment ++ "/" ++ rest) = suggestionsFor ("/api/" ++ segment).
Proof.
  intros H N.
  assert (L : holds "/" (toLowerCase segment) = false) by now rewrite holds_toLowerCase.
  assert (NE : nonEmpty (toLowerCase segment) = true).
  { unfold nonEmpty. destruct (String.eqb_spec (toLowerCase segment) EmptyString) as [E|_];
      [|reflexivity]. apply toLowerCase_empty in E. contradiction. }
  assert (S1 : nth_error (filter nonEmpty (split "/" (toLowerCase ("/api/" ++ segment)))) 1
               = Some (toLowerCase segment)).
  { rewrite toLowerCase_app.
    change (toLowerCase "/api/") with ("/api" ++ "/").
    rewrite append_assoc. change ("/" ++ toLowerCase segment) with (String "/" (toLowerCase segment)).
    rewrite split_at. rewrite (split_whole "/" _ L).
    rewrite filter_app. simpl. now rewrite NE. }
  assert (S2 : nth_error (filter nonEmpty
                            (split "/" (toLowerCase ("/api/" ++ segment ++ "/" ++ rest)))) 1
               = Some (toLowerCase segment)).
  { rewrite !toLowerCase_app.
    change (toLowerCase "/api/") with ("/api" ++ "/").
    change (toLowerCase "/") with "/".
    rewrite append_assoc.
    change ("/" ++ toLowerCase segment ++ "/" ++ toLowerCase rest)
      with (String "/" (toLowerCase segment ++ String "/" (toLowerCase rest))).
    rewrite split_at. rewrite split_at. rewrite (split_whole "/" _ L).
    rewrite !filter_app. simpl. now rewrite NE. }
  split.
  - unfold suggestionsFor. now rewrite S1.
  - apply suggestionsFor_resource. now rewrite S1, S2.
Qed.

Lemma first_segment_decides_witness :
  suggestionsFor ("/api/" ++ "CART" ++ "/" ++ "items/42?sort=asc")
  = Ok [ "/api/cart"; "/api/cart/add"; "/api/cart/update"; "/api/cart/remove";
         "/api/cart/clear" ].
Proof.
  destruct (first_segment_decides "CART" "items/42?sort=asc" eq_refl) as [A B];
    [discriminate|].
  rewrite B. rewrite A. reflexivity.
Defined.

(** ** What the responder does with a request *)

(** X16.  The errors of [methodNotAllowedHandler] and [rateLimitHandler], given
    to the error middleware, are answered with status 405 and the code
    SERVER_ERROR - 405 has no code of its own - and with status 429 and
    RATE_LIMIT_EXCEEDED, messages as written, in either mode. *)
Theorem method_and_rate_answers rt req req' :
  (exists e, methodNotAllowedHandler rt req' = WithError e /\
             answers rt e req 405 "SERVER_ERROR"
               ("Method " ++ method req' ++ " is not allowed for " ++ originalUrl req'
                ++ ". Check the API documentation for supported methods.")) /\
  (exists e, rateLimitHandler rt = WithError e /\
             answers rt e req 429 "RATE_LIMIT_EXCEEDED"
               "Rate limit exceeded. Please try again later. Check the X-RateLimit-* headers for details.").
Proof.
  split; eexists; (split; [reflexivity|]); apply answers_AppError;
    try discriminate; reflexivity.
Qed.

(** ** The symbolic code of an API 404 *)

Lemma includes_without_f (l t : string) :
  holds "f" l = false -> includes "find" (l ++ t) = includes "find" t.
Proof.
  induction l as [|c l IH]; simpl holds; [reflexivity|].
  intros H. apply orb_false_iff in H. destruct H as [H1 H2].
  change (String c l ++ t) with (String c (l ++ t)).
  rewrite includes_unfold, prefix_cons.
  destruct (Ascii.ascii_dec "f" c) as [<-|_]; [discriminate H1|]. simpl.
  now apply IH.
Qed.

Lemma bullets_head (item : string) (items : list string) :
  bullets (item :: items) = "
  • " ++ item ++ bullets items.
Proof. unfold bullets. simpl. now rewrite bullets_from. Qed.

(** No group of the directory, nor the common list, puts "find" into the
    suggestion block. *)
Lemma suggestions_without_find (url : string) (suggestions : list string) :
  suggestionsFor url = Ok suggestions ->
  includes "find" (bullets (firstn 5 suggestions)) = false /\
  exists first rest, suggestions = first :: rest.
Proof.
  unfold suggestionsFor, lookup.
  destruct (nth_error _ 1) as [resource|];
    [|intros [= <-]; split; [reflexivity | eexists; eexists; reflexivity]].
  unfold apiRoutes. simpl assoc.
  repeat match goal with
         | |- context [String.eqb resource ?s] => destruct (String.eqb resource s)
         end;
    try (intros [= <-]; split; [reflexivity | eexists; eexists; reflexivity]).
  destruct (existsb _ _); [discriminate|].
  intros [= <-]; split; [reflexivity | eexists; eexists; reflexivity].
Qed.

Lemma notFoundMessage_without_find rt req suggestions :
  suggestionsFor (originalUrl req) = Ok suggestions ->
  includes "find" (method req) = false ->
  includes "find" (originalUrl req) = false ->
  includes "find" (protocol req) = false ->
  includes "find" (toString rt (host req)) = false ->
  includes "find" (notFoundMessage rt req suggestions) = false.
Proof.
  intros S Hm Hu Hp Hh.
  destruct (suggestions_without_find _ _ S) as (HB & first & rest & ->).
  unfold notFoundMessage.
  change (0 <? length (first :: rest))%nat with true. cbv iota.
  set (block := bullets (firstn 5 (first :: rest))) in *.
  assert (BA : startsApart block = true).
  { subst block. simpl firstn. rewrite bullets_head. reflexivity. }
  set (tail := "/docs" ++ "

Troubleshooting tips:" ++ bullets tips).
  assert (T0 : includes "find" tail = false) by reflexivity.
  assert (T0a : startsApart tail = true) by reflexivity.
  (* host *)
  assert (T1 : includes "find" ("://" ++ toString rt (host req) ++ tail) = false).
  { rewrite includes_without_f by reflexivity.
    now rewrite includes_find_app. }
  (* protocol *)
  assert (T2 : includes "find"
                 ("

For complete API documentation, visit: "
                  ++ protocol req ++ "://" ++ toString rt (host req) ++ tail) = false).
  { rewrite includes_without_f by reflexivity.
    rewrite includes_find_app; [exact Hp | exact T1 | reflexivity]. }
  set (doc := "

For complete API documentation, visit: "
              ++ protocol req ++ "://" ++ toString rt (host req) ++ tail) in *.
  (* the suggestion block *)
  assert (T3 : includes "find" (" these:" ++ block ++ doc) = false).
  { rewrite includes_without_f by reflexivity.
    rewrite includes_find_app; [exact HB | exact T2 | reflexivity]. }
  assert (T4 : includes "find" ("ound." ++ "

Did you mean one of" ++ " these:" ++ block ++ doc) = false).
  { rewrite includes_without_f by reflexivity.
    rewrite includes_find_app; [reflexivity | exact T3 | reflexivity]. }
  set (after := "ound." ++ "

Did you mean one of" ++ " these:" ++ block ++ doc) in *.
  (* the URL and the method *)
  assert (T5 : includes "find" (" " ++ originalUrl req ++ "' not f" ++ after) = false).
  { rewrite includes_without_f by reflexivity.
    assert (X : includes "find" ("' not f" ++ after) = false)
      by (rewrite includes_find_app; [reflexivity | exact T4 | reflexivity]).
    rewrite includes_find_app; [exact Hu | exact X | reflexivity]. }
  assert (T6 : includes "find"
                 ("API endpoint '" ++ method req ++ " " ++ originalUrl req
                  ++ "' not f" ++ after) = false).
  { rewrite includes_without_f by reflexivity.
    rewrite includes_find_app; [exact Hm | exact T5 | reflexivity]. }
  match goal with
  | |- includes "find" ?m = false =>
      replace m with ("API endpoint '" ++ method req ++ " " ++ originalUrl req
                      ++ "' not f" ++ after); [exact T6|]
  end.
  rewrite !append_assoc. subst after doc tail. reflexivity.
Qed.

(** X17.  The 404 error [apiNotFoundHandler] hands on is answered with the code
    ROUTE_NOT_FOUND when the URL contains "find", and with
    RESOURCE_NOT_FOUND when neither the method, the URL, the protocol nor
    the host does: the responder's own wording never says "find". *)
Theorem api_not_found_code rt req req' suggestions :
  String.prefix "/api/" (originalUrl req') = true ->
  suggestionsFor (originalUrl req') = Ok suggestions ->
  exists message,
    apiNotFoundHandler rt req' = Ok (WithError (AppError rt message (Some 404))) /\
    (Substring "find" (originalUrl req') ->
     answers rt (AppError rt message (Some 404)) req 404 "ROUTE_NOT_FOUND" message) /\
    (includes "find" (method req') = false ->
     includes "find" (originalUrl req') = false ->
     includes "find" (protocol req') = false ->
     includes "find" (toString rt (host req')) = false ->
     answers rt (AppError rt message (Some 404)) req 404 "RESOURCE_NOT_FOUND" message).
Proof.
  intros P S. unfold apiNotFoundHandler. rewrite P, S. simpl.
  eexists. split; [reflexivity|]. split.
  - intros H. apply answers_AppError; [discriminate|].
    unfold getErrorCode. simpl is_num. cbn [includes_method bind].
    replace (includes "find" (notFoundMessage rt req' suggestions)) with true;
      [reflexivity|].
    symmetry. apply includes_spec. unfold notFoundMessage.
    apply Substring_left. apply Substring_right. apply Substring_right.
    apply Substring_right. now apply Substring_left.
  - intros Hm Hu Hp Hh. apply answers_AppError; [discriminate|].
    unfold getErrorCode. simpl is_num. cbn [includes_method bind].
    now rewrite (notFoundMessage_without_find rt req' suggestions S Hm Hu Hp Hh).
Qed.

Lemma api_not_found_code_witness :
  exists message,
    apiNotFoundHandler Scenarios.production (Scenarios.getApi "/api/xyz123")
    = Ok (WithError (AppError Scenarios.production message (Some 404))) /\
    answers Scenarios.production (AppError Scenarios.production message (Some 404))
      Scenarios.request 404 "RESOURCE_NOT_FOUND" message.
Proof.
  destruct (api_not_found_code Scenarios.production Scenarios.request
              (Scenarios.getApi "/api/xyz123") commonSuggestions eq_refl eq_refl)
    as (message & H & _ & R).
  exists message. split; [exact H|]. apply R; reflexivity.
Defined.

End NotFoundMore.

(* ===================================================================== *)
(** * More on the shutdown sequence *)
(* ===================================================================== *)

Module ServerMore.
Import Server ServerSpec.

Lemma exits_step p e : exits p = [] -> exits (step p e) = [] \/ exits (step p e) = [0].
Proof.
  intros H. unfold step. rewrite (exited_nil p H).
  destruct e as [| |signal| |].
  - now left.
  - now left.
  - destruct (server p) eqn:S.
    + left. now apply deliver_server.
    + right. unfold deliver.
      assert (E := gracefulShutdown_no_server (signalName signal) p S).
      rewrite H in E. simpl in E.
      assert (X : exited (gracefulShutdown (signalName signal) p) = true)
        by (unfold exited; now rewrite E).
      now rewrite X.
  - rewrite drain_server by exact H. destruct (closeCallbacks p); auto.
  - rewrite drain_db by exact H. destruct (dbContinuations p); auto.
Qed.

(** X18.  Whatever happens to the process, the shutdown wiring calls
    [process.exit] at most once, and only with code 0. *)
Theorem exits_once_with_code_0 events :
  exits (run boot events) = [] \/ exits (run boot events) = [0].
Proof.
  assert (G : forall p, exits p = [] \/ exits p = [0] ->
                        exits (run p events) = [] \/ exits (run p events) = [0]).
  { induction events as [|e events IH]; intros p H; simpl; [exact H|].
    apply IH. destruct H as [H|H].
    - now apply exits_step.
    - right. rewrite step_exited; [exact H|]. unfold exited. now rewrite H. }
  apply G. now left.
Qed.

(** Nothing waits and nothing has been called. *)
Lemma quiet_step p e :
  isSignal e = false ->
  exits p = [] /\ closeCallbacks p = 0%nat /\ dbContinuations p = 0%nat /\
  serverCloseCalls p = 0%nat /\ dbCloseCalls p = 0%nat ->
  exits (step p e) = [] /\ closeCallbacks (step p e) = 0%nat /\
  dbContinuations (step p e) = 0%nat /\
  serverCloseCalls (step p e) = 0%nat /\ dbCloseCalls (step p e) = 0%nat.
Proof.
  intros S (H & C & D & SC & DC). unfold step. rewrite (exited_nil p H).
  destruct e as [| |signal| |]; try discriminate S.
  - now repeat split.
  - now repeat split.
  - rewrite C. simpl. now repeat split.
  - rewrite D. simpl. now repeat split.
Qed.

(** X19.  Without a termination signal the process never exits through this
    wiring and closes nothing, whichever other events occur. *)
Theorem no_signal_no_exit events :
  forallb (fun e => negb (isSignal e)) events = true ->
  exits (run boot events) = [] /\
  serverCloseCalls (run boot events) = 0%nat /\
  dbCloseCalls (run boot events) = 0%nat /\
  state (run boot events) = Running.
Proof.
  intros F.
  assert (G : forall p,
             exits p = [] /\ closeCallbacks p = 0%nat /\ dbContinuations p = 0%nat /\
             serverCloseCalls p = 0%nat /\ dbCloseCalls p = 0%nat ->
             exits (run p events) = [] /\ closeCallbacks (run p events) = 0%nat /\
             dbContinuations (run p events) = 0%nat /\
             serverCloseCalls (run p events) = 0%nat /\
             dbCloseCalls (run p events) = 0%nat).
  { induction events as [|e events IH]; intros p H; simpl; [exact H|].
    simpl in F. apply andb_true_iff in F. destruct F as [F1 F2].
    apply IH; [exact F2|]. apply quiet_step; [|exact H].
    now apply negb_true_iff in F1. }
  destruct (G boot) as (E & _ & _ & SC & DC); [now repeat split|].
  repeat split; try assumption.
  unfold state. rewrite (exited_nil _ E). now rewrite SC.
Qed.

Lemma no_signal_no_exit_witness :
  exits (run boot [DbConnected; Listening; ServerClosed; DbClosed]) = [] /\
  state (run boot [DbConnected; Listening; ServerClosed; DbClosed]) = Running.
Proof.
  destruct (no_signal_no_exit [DbConnected; Listening; ServerClosed; DbClosed] eq_refl)
    as (E & _ & _ & S).
  split; [exact E | exact S].
Defined.

Lemma deliver_sigterm p :
  dbCloseCalls (deliver SIGTERM p) = dbCloseCalls p /\
  dbContinuations (deliver SIGTERM p) = dbContinuations p.
Proof.
  unfold deliver, gracefulShutdown. simpl.
  destruct (server p); simpl;
    match goal with
    | |- context [if ?b then _ else _] => destruct b
    end; split; reflexivity.
Qed.

Lemma calm_step p e :
  isSigint e = false ->
  dbCloseCalls p = 0%nat /\ dbContinuations p = 0%nat ->
  dbCloseCalls (step p e) = 0%nat /\ dbContinuations (step p e) = 0%nat.
Proof.
  intros S (C & D). unfold step. destruct (exited p); [now split|].
  destruct e as [| |signal| |].
  - now split.
  - now split.
  - destruct signal; [|discriminate S].
    destruct (deliver_sigterm p) as [A B]. rewrite A, B. now split.
  - assert (G : forall n q, dbCloseCalls q = 0%nat /\ dbContinuations q = 0%nat ->
                            dbCloseCalls (drain n onServerClosed q) = 0%nat /\
                            dbContinuations (drain n onServerClosed q) = 0%nat).
    { induction n as [|n IH]; intros q H; simpl; [exact H|].
      destruct (exited q); [exact H|]. apply IH. exact H. }
    apply G. now split.
  - rewrite D. simpl. now split.
Qed.

(** X20.  Only SIGINT closes the database connection: as long as no SIGINT is
    delivered, [mongoose.connection.close] is never called, however many
    SIGTERMs arrive. *)
Theorem only_sigint_closes_the_database events :
  forallb (fun e => negb (isSigint e)) events = true ->
  dbCloseCalls (run boot events) = 0%nat.
Proof.
  intros F.
  assert (G : forall p, dbCloseCalls p = 0%nat /\ dbContinuations p = 0%nat ->
                        dbCloseCalls (run p events) = 0%nat /\
                        dbContinuations (run p events) = 0%nat).
  { induction events as [|e events IH]; intros p H; simpl; [exact H|].
    simpl in F. apply andb_true_iff in F. destruct F as [F1 F2].
    apply IH; [exact F2|]. apply calm_step; [|exact H].
    now apply negb_true_iff in F1. }
  apply G. now split.
Qed.

Lemma only_sigint_closes_the_database_witness :
  dbCloseCalls (run boot [DbConnected; Listening; Signal SIGTERM; Signal SIGTERM;
                          ServerClosed]) = 0%nat.
Proof.
  apply (only_sigint_closes_the_database
           [DbConnected; Listening; Signal SIGTERM; Signal SIGTERM; ServerClosed]).
  reflexivity.
Defined.

Lemma drain_calls n callback p :
  (forall q, serverCloseCalls (callback q) = serverCloseCalls q) ->
  serverCloseCalls (drain n callback p) = serverCloseCalls p.
Proof.
  intros H. revert p. induction n as [|n IH]; intros p; simpl; [reflexivity|].
  destruct (exited p); [reflexivity|]. now rewrite IH, H.
Qed.

Lemma serverCloseCalls_step p e :
  (serverCloseCalls p <= serverCloseCalls (step p e))%nat.
Proof.
  unfold step. destruct (exited p); [lia|].
  destruct e as [| |signal| |]; simpl; try lia.
  - unfold deliver, gracefulShutdown. simpl.
    destruct (server p); simpl;
      match goal with
      | |- context [if ?b then _ else _] => destruct b
      end; simpl; try lia; destruct signal; simpl; try lia;
      destruct (dbListener p); simpl; lia.
  - rewrite drain_calls; [simpl; lia | reflexivity].
  - rewrite drain_calls; [simpl; lia | reflexivity].
Qed.

(** X21.  The supervisor only moves forward: from Running to ShuttingDown to
    Stopped, never back, whatever the event. *)
Theorem state_never_goes_back p e :
  (rank (state p) <= rank (state (step p e)))%nat.
Proof.
  unfold state at 1. destruct (exited p) eqn:X.
  - rewrite step_exited by exact X. unfold state. now rewrite X.
  - assert (L := serverCloseCalls_step p e).
    unfold state. destruct (exited (step p e)).
    + destruct (serverCloseCalls p); simpl; lia.
    + destruct (serverCloseCalls p); [simpl; lia|].
      destruct (serverCloseCalls (step p e)); [lia | simpl; lia].
Qed.

(** X22.  Before the server is listening the first termination signal ends the
    process at once, with code 0 and without closing anything; once it is
    listening, signals alone never end it: each one only adds a call to
    [server.close], and the process lives until a close completes. *)
Theorem signals_and_exit p signals :
  exits p = [] ->
  (server p = false ->
   forall signal,
     exits (step p (Signal signal)) = [0] /\
     serverCloseCalls (step p (Signal signal)) = serverCloseCalls p /\
     dbCloseCalls (step p (Signal signal)) = dbCloseCalls p) /\
  (server p = true ->
   exits (run p (map Signal signals)) = [] /\
   serverCloseCalls (run p (map Signal signals))
   = (serverCloseCalls p + length signals)%nat).
Proof.
  intros H. split.
  - intros S signal. unfold step. rewrite (exited_nil p H).
    unfold deliver, gracefulShutdown. simpl. rewrite S. simpl.
    unfold exited. simpl. rewrite H. simpl. rewrite H. repeat split.
  - intros S. revert p H S. induction signals as [|signal signals IH]; intros p H S; simpl.
    + split; [exact H | lia].
    + assert (P : step p (Signal signal) = deliver signal p)
        by (unfold step; now rewrite (exited_nil p H)).
      destruct (deliver_server signal p S H) as (E & C & _ & V).
      rewrite <- P in E, C, V.
      destruct (IH _ E V) as [E' C']. split; [exact E'|]. rewrite C', C. lia.
Qed.

Lemma signals_and_exit_witness :
  exits (step boot (Signal SIGINT)) = [0] /\
  exits (run (run boot [DbConnected; Listening]) (map Signal [SIGTERM; SIGINT; SIGTERM]))
  = [] /\
  serverCloseCalls
    (run (run boot [DbConnected; Listening]) (map Signal [SIGTERM; SIGINT; SIGTERM]))
  = 3%nat.
Proof.
  split.
  - apply (proj1 (signals_and_exit boot [] eq_refl) eq_refl SIGINT).
  - apply (proj2 (signals_and_exit (run boot [DbConnected; Listening])
                    [SIGTERM; SIGINT; SIGTERM] eq_refl) eq_refl).
Defined.

(** X23.  After a SIGINT, with the server listening and the database connected,
    the completion of the database close ends the process while the HTTP
    server is still closing: the callback given to [server.close] has not
    run and never will, and "HTTP server closed" is not written. *)
Theorem sigint_can_cut_the_server_close_short p :
  server p = true -> dbListener p = true -> exits p = [] -> dbContinuations p = 0%nat ->
  exits (run p [Signal SIGINT; DbClosed]) = [0] /\
  closeCallbacks (run p [Signal SIGINT; DbClosed]) = S (closeCallbacks p) /\
  console (run p [Signal SIGINT; DbClosed])
  = (console p ++
     [ "
🛑 Received SIGINT. Starting graceful shutdown...";
       "🔴 MongoDB connection closed through app termination" ])%list /\
  forall events, run (run p [Signal SIGINT; DbClosed]) events = run p [Signal SIGINT; DbClosed].
Proof.
  intros HS D H C. simpl run.
  assert (P : step p (Signal SIGINT)
              = db_close (server_close (log "
🛑 Received SIGINT. Starting graceful shutdown..." p))).
  { unfold step. rewrite (exited_nil p H). unfold deliver, gracefulShutdown. simpl.
    rewrite HS. simpl. unfold exited. simpl. rewrite H. now rewrite D. }
  set (q := db_close (server_close (log "
🛑 Received SIGINT. Starting graceful shutdown..." p))) in *.
  assert (X1 : exited q = false) by (apply exited_nil; exact H).
  assert (X2 : exited (clearDbContinuations q) = false) by (apply exited_nil; exact H).
  assert (R : step q DbClosed = onDbClosed (clearDbContinuations q)).
  { unfold step. rewrite X1.
    change (dbContinuations q) with (S (dbContinuations p)). rewrite C.
    simpl drain. now rewrite X2. }
  rewrite P, R. repeat split.
  - simpl. now rewrite H.
  - simpl. now rewrite <- app_assoc.
  - intros events. apply run_exited. unfold exited. simpl. now rewrite H.
Qed.

Lemma sigint_can_cut_the_server_close_short_witness :
  exits (run (run boot [DbConnected; Listening]) [Signal SIGINT; DbClosed]) = [0] /\
  closeCallbacks (run (run boot [DbConnected; Listening]) [Signal SIGINT; DbClosed])
  = 1%nat.
Proof.
  destruct (sigint_can_cut_the_server_close_short (run boot [DbConnected; Listening])
              eq_refl eq_refl eq_refl eq_refl) as (E & C & _).
  split; [exact E | exact C].
Defined.

End ServerMore.
